(** * pdf2latex: the batch page-processing pipeline

    A shallow embedding of [pdf2latex.py].  The script renders every page
    of a PDF as an image, sends each selected page to a remote vision
    model, and wraps the returned LaTeX fragments in a fixed document.

    What is modelled, and how:
    - Python [int] is [Z]; [//] is [Z.div] (both round towards minus
      infinity); [str(int)] is the decimal printer of the Standard Library.
    - Python lists are [list]; slicing [l[a:b]] is [py_slice], with
      Python's treatment of negative and out-of-range bounds written out.
    - The environment and the libraries the script calls (PyMuPDF, PIL,
      the Anthropic SDK, [os.path]) are the fields of the class
      [Platform].  A library call that can raise returns a [result].  Only
      exceptions of class [Exception] are modelled, these are the ones the
      script's handlers catch.
    - A model response is the list of the texts of its content blocks.
    - Effects are threaded through a small state-and-exit monad.  The state
      holds the state of the remote service and a chronological log of the
      observable events: lines printed, entries into the transcription
      function, sleeps and files written.  Writing a file is assumed to
      succeed; the progress bars of [tqdm] go to stderr and are left out.
    - [sys.exit(c)] ends the run with [SysExit c]. *)

From Stdlib Require Import QArith ZArith List String Ascii Bool Lia DecimalString.
Import ListNotations.

Local Open Scope string_scope.
Local Open Scope list_scope.
Local Open Scope Z_scope.

(** ** Python built-ins *)

(** [str(z)] for an [int]. *)
Definition str_int (z : Z) : string := NilZero.string_of_int (Z.to_int z).

(** [len(l)]. *)
Definition len {A : Type} (l : list A) : Z := Z.of_nat (List.length l).

(** [range(n)]: empty when [n <= 0]. *)
Definition range (n : Z) : list Z := map Z.of_nat (seq 0 (Z.to_nat n)).

(** [enumerate(l)], counting from [i]. *)
Fixpoint enumerate_from {A : Type} (i : Z) (l : list A) : list (Z * A) :=
  match l with
  | [] => []
  | x :: l' => (i, x) :: enumerate_from (i + 1) l'
  end.

Definition enumerate {A : Type} (l : list A) : list (Z * A) :=
  enumerate_from 0 l.

(** A slice bound as Python normalises it for a list of length [n]: a
    negative bound counts from the end, and the result is clamped to
    [0 .. n]. *)
Definition slice_bound (n i : Z) : Z :=
  if i <? 0 then Z.max (i + n) 0 else Z.min i n.

(** [l[a:b]]. *)
Definition py_slice {A : Type} (l : list A) (a b : Z) : list A :=
  let lo := slice_bound (len l) a in
  let hi := slice_bound (len l) b in
  firstn (Z.to_nat (hi - lo)) (skipn (Z.to_nat lo) l).

(** [sep.join(l)]. *)
Fixpoint join (sep : string) (l : list string) : string :=
  match l with
  | [] => ""
  | [x] => x
  | x :: l' => (x ++ sep ++ join sep l')%string
  end.

(** Truthiness of an optional string ([None] and [""] are falsy). *)
Definition truthy_str (s : option string) : bool :=
  match s with
  | None => false
  | Some "" => false
  | Some _ => true
  end.

(** [a or b] for an optional integer [a]: [None] and [0] are falsy. *)
Definition or_int (a : option Z) (b : Z) : Z :=
  match a with
  | None => b
  | Some v => if v =? 0 then b else v
  end.

(** ** DocumentAssembler: [combine_latex_pages] *)

Definition preamble : string := "
\documentclass{amsart}
\usepackage[utf8]{inputenc}
\usepackage[T1]{fontenc}
\usepackage{graphicx}
\usepackage{amsmath}
\usepackage{amssymb}
\usepackage{hyperref}
\usepackage{natbib}
\usepackage{booktabs}
\usepackage{float}
\usepackage{array}
\usepackage{multirow}
\usepackage{longtable}
\usepackage{mathrsfs}


\begin{document}

\maketitle
".

Definition page_separator : string := "

% ===== NEW PAGE =====

".

Definition postamble : string := "

\end{document}".

Definition combine_latex_pages (latex_pages : list string) : string :=
  let content := join page_separator latex_pages in
  (preamble ++ content ++ postamble)%string.

(** The assembler as the specification words it: the preamble, then the
    fragments with a separator between each two neighbours, then the
    postamble.  Written as a right fold that emits each fragment and, for
    all but the last, the separator. *)
Definition assembled_body (fragments : list string) : string :=
  snd (fold_right
         (fun f '(last, acc) =>
            (false, if last : bool then f else (f ++ page_separator ++ acc)%string))
         (true, "") fragments).

Definition assembled_document (fragments : list string) : string :=
  (preamble ++ assembled_body fragments ++ postamble)%string.

(** A document with its last [length postamble] characters removed. *)
Definition strip_postamble (document : string) : string :=
  substring 0 (String.length document - String.length postamble) document.

(** [p] is a strict prefix of [s]. *)
Definition strict_prefix (p s : string) : Prop :=
  exists rest : string, rest <> "" /\ s = (p ++ rest)%string.

(** [sub] occurs in [s]. *)
Definition occurs_in (sub s : string) : Prop :=
  exists before after : string, s = (before ++ sub ++ after)%string.

(** ** Results, events and the monad *)

(** The value of a library call, or the message of the [Exception] it
    raised. *)
Inductive result (A : Type) : Type :=
| Ok (a : A)
| Raise (msg : string).
Arguments Ok {A} a.
Arguments Raise {A} msg.

(** What a run lets be observed.  [Transcribe k] marks an entry into the
    transcription function for page [k]; the script itself leaves no
    trace of it, the event is there to count and order the calls. *)
Inductive event : Type :=
| Print (line : string)
| Transcribe (page_num : Z)
| Sleep (seconds : Z)
| WriteFile (path : string) (content : string).

Inductive outcome (A : Type) : Type :=
| Done (a : A)
| SysExit (code : Z)
| Uncaught (exn : string).
Arguments Done {A} a.
Arguments SysExit {A} code.
Arguments Uncaught {A} exn.

(** The process exit status of a finished run. *)
Definition exit_code {A : Type} (o : outcome A) : Z :=
  match o with
  | Done _ => 0
  | SysExit code => code
  | Uncaught _ => 1
  end.

(** Observations on a log. *)
Definition requests (evs : list event) : list Z :=
  flat_map (fun e => match e with Transcribe p => [p] | _ => [] end) evs.

Definition writes (evs : list event) : list (string * string) :=
  flat_map (fun e => match e with WriteFile p c => [(p, c)] | _ => [] end) evs.

(** A lower bound on the time a log takes: the seconds slept. *)
Definition elapsed (evs : list event) : Z :=
  fold_right (fun e t => match e with Sleep s => s + t | _ => t end) 0 evs.

(** Pacing automaton.  [owed] tells whether a page has been sent since the
    last pause.  A log is refused when a page is sent while a pause is
    owed, or when a sleep is negative. *)
Fixpoint pace (evs : list event) (owed : bool) : option bool :=
  match evs with
  | [] => Some owed
  | Transcribe _ :: evs' => if owed then None else pace evs' true
  | Sleep s :: evs' =>
      if s <? 0 then None else pace evs' (if 1 <=? s then false else owed)
  | _ :: evs' => pace evs' owed
  end.

(** ** The pipeline *)

(** Parsed command line ([argparse] namespace). *)
Record Args : Type := {
  pdf_path : string;
  output : option string;
  dpi : Z;
  start_page : Z;
  end_page : option Z;
  batch_size : option Z
}.

(** The same command line with another [--batch-size]. *)
Definition with_batch_size (args : Args) (b : option Z) : Args := {|
  pdf_path := pdf_path args;
  output := output args;
  dpi := dpi args;
  start_page := start_page args;
  end_page := end_page args;
  batch_size := b
|}.

(** The arguments of [claude_client.messages.create]: one user message
    made of a base64 image and a text. *)
Record Request : Type := {
  model : string;
  max_tokens : Z;
  temperature : Q;
  system : string;
  media_type : string;
  data : string;
  text : string
}.

(** The outside world: the environment and the libraries the script
    calls. *)
Class Platform : Type := {
  Image : Type;                         (* a PIL image *)
  Doc : Type;                           (* an open PyMuPDF document *)
  World : Type;                         (* state of the remote service *)
  ANTHROPIC_API_KEY : option string;    (* os.environ.get("ANTHROPIC_API_KEY") *)
  environ_ANTHROPIC_MODEL : option string;
  path_exists : string -> bool;         (* os.path.exists *)
  basename : string -> string;          (* os.path.basename *)
  splitext_root : string -> string;     (* os.path.splitext(p)[0] *)
  fitz_open : string -> result Doc;     (* fitz.open *)
  page_count : Doc -> nat;              (* len(doc) *)
  (** [load_page], [get_pixmap] at the given dpi and [Image.frombytes]
      for one page. *)
  rasterize : Doc -> Z -> Z -> result Image;
  (** [image.save(buffered, format="PNG")] and the base64 text of the
      buffer. *)
  encode_png : Image -> result string;
  (** [claude_client.messages.create]: the texts of the content blocks of
      the response, or the exception raised. *)
  messages_create : Request -> World -> result (list string) * World
}.

Section Pipeline.

Context {platform : Platform}.

Record state : Type := {
  world : World;
  log : list event
}.

Definition M (A : Type) : Type := state -> outcome A * state.

Definition ret {A : Type} (a : A) : M A := fun st => (Done a, st).

Definition bind {A B : Type} (m : M A) (k : A -> M B) : M B :=
  fun st =>
    match m st with
    | (Done a, st') => k a st'
    | (SysExit code, st') => (SysExit code, st')
    | (Uncaught exn, st') => (Uncaught exn, st')
    end.

Notation "x <- m ;; k" := (bind m (fun x => k))
  (at level 61, m at next level, right associativity).
Notation "m ;; k" := (bind m (fun _ => k))
  (at level 61, right associativity).

Definition emit (e : event) : M unit :=
  fun st => (Done tt, {| world := world st; log := log st ++ [e] |}).

Definition print (line : string) : M unit := emit (Print line).
Definition sleep (seconds : Z) : M unit := emit (Sleep seconds).
Definition write_file (path content : string) : M unit :=
  emit (WriteFile path content).
Definition sys_exit {A : Type} (code : Z) : M A :=
  fun st => (SysExit code, st).
Definition raise_uncaught {A : Type} (exn : string) : M A :=
  fun st => (Uncaught exn, st).

(** *** [check_environment] *)

Definition check_environment : M bool :=
  let missing_vars :=
    if truthy_str ANTHROPIC_API_KEY then [] else ["ANTHROPIC_API_KEY"] in
  match missing_vars with
  | _ :: _ =>
      print ("Error: Missing required environment variables: "
             ++ join ", " missing_vars) ;;
      print "Please set these variables in your system environment." ;;
      ret false
  | [] => ret true
  end.

(** *** PageRenderer: [extract_pages_as_images] *)

(** The [for page_num in range(len(doc))] loop.  An exception leaves the
    loop, whatever [images] holds by then. *)
Fixpoint render_pages (doc : Doc) (dpi : Z) (page_nums : list Z)
    (images : list Image) : result (list Image) :=
  match page_nums with
  | [] => Ok images
  | page_num :: page_nums' =>
      match rasterize doc page_num dpi with
      | Ok img => render_pages doc dpi page_nums' (images ++ [img])
      | Raise e => Raise e
      end
  end.

Definition extract_pages_as_images (pdf_path : string) (dpi : Z)
    : M (list Image) :=
  match fitz_open pdf_path with
  | Ok doc =>
      print ("Extracting " ++ str_int (Z.of_nat (page_count doc))
             ++ " pages as images...") ;;
      match render_pages doc dpi (range (Z.of_nat (page_count doc))) [] with
      | Ok images => ret images
      | Raise e =>
          print ("Error extracting images from PDF: " ++ e) ;;
          ret []
      end
  | Raise e =>
      print ("Error extracting images from PDF: " ++ e) ;;
      ret []
  end.

(** *** TranscriptionClient *)

Definition ANTHROPIC_MODEL : string :=
  match environ_ANTHROPIC_MODEL with
  | Some m => m
  | None => "claude-3-sonnet-20240229"
  end.

Definition get_image_base64_and_mime (image : Image)
    : result (string * string) :=
  match encode_png image with
  | Ok img_str =>
      let mime_type := "image/png" in
      Ok (img_str, mime_type)
  | Raise e => Raise e
  end.

Definition prompt (page_num : Z) : string :=
  "
        You are looking at page " ++ str_int (page_num + 1) ++ " of a French academic paper. 
        
        Your task:
        1. Analyze the image and extract all text content, including any tables and mathematical formulas.
        2. Translate the French text to English.
        3. Convert the entire content to proper LaTeX format.
        4. Preserve the document structure (headings, paragraphs, etc.).
        5. Convert tables to LaTeX table environments.
        6. Ensure mathematical formulas are properly formatted in LaTeX math environments.
        7. Return ONLY the LaTeX code without explanations.
        8. Don't put \begin{document} and \end{document} in your response.
        9. filled or unfilled square box in the end of the paragraph means \end{proof}.
        ".

(** The keyword arguments of the call to the model. *)
Definition request_for (img_str mime_type : string) (page_num : Z)
    : Request := {|
  model := ANTHROPIC_MODEL;
  max_tokens := 4000;
  temperature := (2 # 10)%Q;
  system := "You are an expert translator and LaTeX formatter specialized in academic papers.";
  media_type := mime_type;
  data := img_str;
  text := prompt page_num
|}.

(** The body of the [try] block: the text of the first content block, or
    the exception raised on the way ([IndexError] when the response has no
    content block). *)
Definition vision_request (image : Image) (page_num : Z) (w : World)
    : result string * World :=
  match get_image_base64_and_mime image with
  | Ok (img_str, mime_type) =>
      match messages_create (request_for img_str mime_type page_num) w with
      | (Ok content, w') =>
          match content with
          | first_text :: _ => (Ok first_text, w')
          | [] => (Raise "list index out of range", w')
          end
      | (Raise e, w') => (Raise e, w')
      end
  | Raise e => (Raise e, w)
  end.

Definition try_vision (image : Image) (page_num : Z) : M (result string) :=
  fun st =>
    let (r, w) := vision_request image page_num (world st) in
    (Done r, {| world := w; log := log st |}).

Definition error_fragment (page_num : Z) (e : string) : string :=
  "% Error processing page " ++ str_int (page_num + 1) ++ "
% " ++ e ++ "

".

Definition translate_and_convert_to_latex_with_claude_vision
    (image : Image) (page_num : Z) : M string :=
  emit (Transcribe page_num) ;;
  r <- try_vision image page_num ;;
  match r with
  | Ok text => ret text
  | Raise e =>
      print ("Error in Claude processing: " ++ e) ;;
      ret (error_fragment page_num e)
  end.

(** *** BatchPipeline: [main] *)

(** Bounds of batch [batch_idx] inside the selection of [n] pages. *)
Definition batch_start (batch_size batch_idx : Z) : Z :=
  batch_idx * batch_size.

Definition batch_end (batch_size n batch_idx : Z) : Z :=
  Z.min ((batch_idx + 1) * batch_size) n.

Definition batch_images (selected_images : list Image)
    (batch_size batch_idx : Z) : list Image :=
  py_slice selected_images (batch_start batch_size batch_idx)
    (batch_end batch_size (len selected_images) batch_idx).

Definition batch_output (output : string) (batch_idx : Z) : string :=
  splitext_root output ++ "_batch" ++ str_int (batch_idx + 1) ++ ".tex".

(** The inner loop, [for i, image in enumerate(batch_images)]. *)
Fixpoint page_loop (start_page batch_start : Z) (items : list (Z * Image))
    (latex_pages : list string) : M (list string) :=
  match items with
  | [] => ret latex_pages
  | (i, image) :: items' =>
      let actual_page := start_page + batch_start + i in
      latex_content <-
        translate_and_convert_to_latex_with_claude_vision image actual_page ;;
      let latex_pages := latex_pages ++ [latex_content] in
      sleep 1 ;;
      page_loop start_page batch_start items' latex_pages
  end.

(** The outer loop, [for batch_idx in range(num_batches)]. *)
Fixpoint batch_loop (output : string) (start_page batch_size num_batches : Z)
    (selected_images : list Image) (batch_idxs : list Z)
    (all_latex_pages : list string) : M (list string) :=
  match batch_idxs with
  | [] => ret all_latex_pages
  | batch_idx :: batch_idxs' =>
      let batch_start := batch_start batch_size batch_idx in
      let batch_end := batch_end batch_size (len selected_images) batch_idx in
      let batch_images := batch_images selected_images batch_size batch_idx in
      print ("Processing batch " ++ str_int (batch_idx + 1) ++ "/"
             ++ str_int num_batches ++ " (pages "
             ++ str_int (start_page + batch_start + 1) ++ "-"
             ++ str_int (start_page + batch_end) ++ ")...") ;;
      latex_pages <-
        page_loop start_page batch_start (enumerate batch_images) [] ;;
      let all_latex_pages := all_latex_pages ++ latex_pages in
      (if 1 <? num_batches then
         let batch_latex := combine_latex_pages latex_pages in
         write_file (batch_output output batch_idx) batch_latex ;;
         print ("Batch " ++ str_int (batch_idx + 1) ++ " saved to: "
                ++ batch_output output batch_idx)
       else ret tt) ;;
      batch_loop output start_page batch_size num_batches selected_images
        batch_idxs' all_latex_pages
  end.

Definition default_output (pdf_path : string) : string :=
  splitext_root (basename pdf_path) ++ "_translated_en.tex".

Definition output_path (args : Args) : string :=
  match output args with
  | Some o => o
  | None => default_output (pdf_path args)
  end.

(** [args.end_page if args.end_page is not None else len(images) - 1]. *)
Definition effective_end_page (args : Args) (n : Z) : Z :=
  match end_page args with
  | Some e => e
  | None => n - 1
  end.

Definition start_range_error (start_page n : Z) : string :=
  "Error: Start page " ++ str_int start_page ++ " is out of range (0-"
  ++ str_int (n - 1) ++ ").".

Definition end_range_error (end_page start_page n : Z) : string :=
  "Error: End page " ++ str_int end_page ++ " is out of range ("
  ++ str_int start_page ++ "-" ++ str_int (n - 1) ++ ").".

Definition main (args : Args) : M unit :=
  env_ok <- check_environment ;;
  if negb env_ok then sys_exit 1 else
  if negb (path_exists (pdf_path args)) then
    print ("Error: File " ++ pdf_path args ++ " not found.") ;;
    sys_exit 1
  else
  let output := output_path args in
  images <- extract_pages_as_images (pdf_path args) (dpi args) ;;
  match images with
  | [] => sys_exit 1
  | _ :: _ =>
  let start_page := start_page args in
  let end_page := effective_end_page args (len images) in
  if (start_page <? 0) || (len images <=? start_page) then
    print (start_range_error start_page (len images)) ;;
    sys_exit 1
  else
  if (end_page <? start_page) || (len images <=? end_page) then
    print (end_range_error end_page start_page (len images)) ;;
    sys_exit 1
  else
  let selected_images := py_slice images start_page (end_page + 1) in
  let batch_size := or_int (batch_size args) (len selected_images) in
  if batch_size =? 0 then raise_uncaught "ZeroDivisionError" else
  let num_batches := (len selected_images + batch_size - 1) / batch_size in
  all_latex_pages <-
    batch_loop output start_page batch_size num_batches selected_images
      (range num_batches) [] ;;
  let full_latex := combine_latex_pages all_latex_pages in
  write_file output full_latex ;;
  print ("Translation and conversion complete. LaTeX file saved to: "
         ++ output)
  end.

(** A run starts with an empty log. *)
Definition initial (w : World) : state := {| world := w; log := [] |}.

End Pipeline.

Notation "x <- m ;; k" := (bind m (fun x => k))
  (at level 61, m at next level, right associativity).
Notation "m ;; k" := (bind m (fun _ => k))
  (at level 61, right associativity).

(** ** Reference semantics used to state the properties *)

(** Cut a list into consecutive pieces of the given lengths. *)
Fixpoint chunks {A : Type} (sizes : list nat) (l : list A) : list (list A) :=
  match sizes with
  | [] => []
  | k :: sizes' => firstn k l :: chunks sizes' (skipn k l)
  end.

Section Reference.

Context {platform : Platform}.

(** The fragments obtained by transcribing the given (page number, image)
    pairs one after the other, and the state the remote service is left
    in. *)
Fixpoint transcribe (w : World) (pages : list (Z * Image))
    : list string * World :=
  match pages with
  | [] => ([], w)
  | (page_num, image) :: pages' =>
      let (r, w1) := vision_request image page_num w in
      let fragment :=
        match r with
        | Ok text => text
        | Raise e => error_fragment page_num e
        end in
      let (fragments, w2) := transcribe w1 pages' in
      (fragment :: fragments, w2)
  end.

(** The pages batch [batch_idx] visits, with the page number the inner
    loop computes for each ([actual_page]). *)
Definition batch_pages (start_page : Z) (selected_images : list Image)
    (batch_size batch_idx : Z) : list (Z * Image) :=
  map (fun '(i, image) =>
         (start_page + batch_start batch_size batch_idx + i, image))
      (enumerate (batch_images selected_images batch_size batch_idx)).

(** The page numbers of a batch. *)
Definition batch_page_nums (start_page : Z) (selected_images : list Image)
    (batch_size batch_idx : Z) : list Z :=
  map fst (batch_pages start_page selected_images batch_size batch_idx).

(** The selection [images[start_page:end_page+1]] and the number of
    batches, as [main] computes them. *)
Definition selection (images : list Image) (start_page end_page : Z)
    : list Image :=
  py_slice images start_page (end_page + 1).

Definition num_batches (n batch_size : Z) : Z :=
  (n + batch_size - 1) / batch_size.

(** The images a run of [main] works on: what the renderer returns. *)
Definition rendered_images (pdf_path : string) (dpi : Z) : list Image :=
  match fitz_open pdf_path with
  | Ok doc =>
      match render_pages doc dpi (range (Z.of_nat (page_count doc))) [] with
      | Ok images => images
      | Raise _ => []
      end
  | Raise _ => []
  end.

(** The fragments of batch [batch_idx] among the fragments of the whole
    selection. *)
Definition batch_fragments (fragments : list string)
    (batch_size batch_idx : Z) : list string :=
  py_slice fragments (batch_start batch_size batch_idx)
    (batch_end batch_size (len fragments) batch_idx).

(** The page numbers [s, s+1, ..., e]. *)
Definition pages_between (s e : Z) : list Z :=
  map (fun k => s + Z.of_nat k) (seq 0 (Z.to_nat (e - s + 1))).

(** The range check of [main] on [n] rendered pages. *)
Definition valid_range (n s e : Z) : Prop := 0 <= s <= e /\ e <= n - 1.

(** The inputs on which [main] gets past all its checks. *)
Definition run_ready (args : Args) : Prop :=
  truthy_str ANTHROPIC_API_KEY = true
  /\ path_exists (pdf_path args) = true
  /\ let n := len (rendered_images (pdf_path args) (dpi args)) in
     valid_range n (start_page args) (effective_end_page args n).

(** The message [main] prints when the range check fails. *)
Definition range_error (args : Args) : string :=
  let n := len (rendered_images (pdf_path args) (dpi args)) in
  let s := start_page args in
  if (s <? 0) || (n <=? s) then start_range_error s n
  else end_range_error (effective_end_page args n) s n.

(** The intermediate files of the given batches, from the fragments of
    each. *)
Definition batch_files (output : string) (batch_idxs : list Z)
    (pieces : list (list string)) : list (string * string) :=
  map (fun '(batch_idx, latex_pages) =>
         (batch_output output batch_idx, combine_latex_pages latex_pages))
      (combine batch_idxs pieces).

End Reference.

(** ** A POSIX [os.path] and a test platform *)

Fixpoint rfind_from (c : ascii) (s : string) (i found : Z) : Z :=
  match s with
  | EmptyString => found
  | String a s' => rfind_from c s' (i + 1) (if Ascii.eqb a c then i else found)
  end.

(** [s.rfind(c)]: the last index of [c], or [-1]. *)
Definition rfind (c : ascii) (s : string) : Z := rfind_from c s 0 (-1).

(** [s[a:b]] for [0 <= a], [0 <= b]. *)
Definition str_slice (s : string) (a b : Z) : string :=
  substring (Z.to_nat a) (Z.to_nat (b - a)) s.

(** [posixpath.basename]. *)
Definition posix_basename (p : string) : string :=
  let i := rfind "/" p + 1 in
  str_slice p i (Z.of_nat (String.length p)).

(** [posixpath.splitext(p)[0]]: cut at the last dot of the last path
    component, unless only dots precede it there. *)
Definition posix_splitext_root (p : string) : string :=
  let sepIndex := rfind "/" p in
  let dotIndex := rfind "." p in
  if sepIndex <? dotIndex then
    if existsb (fun a => negb (Ascii.eqb a "."))
         (list_ascii_of_string (str_slice p (sepIndex + 1) dotIndex))
    then str_slice p 0 dotIndex
    else p
  else p.

(** A platform for concrete runs: a document of [pages] pages, page [k]
    rendered as the image [k] and encoded as the decimal text of [k]; the
    model answers with a section heading naming the image and fails on the
    images [fails] selects.  The service state counts the calls. *)
Definition test_platform (pages : nat) (fails : string -> bool) : Platform := {|
  Image := Z;
  Doc := nat;
  World := nat;
  ANTHROPIC_API_KEY := Some "sk-test";
  environ_ANTHROPIC_MODEL := None;
  path_exists := fun _ => true;
  basename := posix_basename;
  splitext_root := posix_splitext_root;
  fitz_open := fun _ => Ok pages;
  page_count := fun d => d;
  rasterize := fun _ page_num _ => Ok page_num;
  encode_png := fun image => Ok (str_int image);
  messages_create := fun request w =>
    ((if fails (data request) then Raise "overloaded"
      else Ok ["\section{" ++ data request ++ "}"]%string), S w)
|}.

(** A document of three pages whose second page cannot be rasterized. *)
Definition torn_platform : Platform := {|
  Image := Z;
  Doc := nat;
  World := nat;
  ANTHROPIC_API_KEY := Some "sk-test";
  environ_ANTHROPIC_MODEL := None;
  path_exists := fun _ => true;
  basename := posix_basename;
  splitext_root := posix_splitext_root;
  fitz_open := fun _ => Ok 3%nat;
  page_count := fun d => d;
  rasterize := fun _ page_num _ =>
    if page_num =? 1 then Raise "cannot render page" else Ok page_num;
  encode_png := fun image => Ok (str_int image);
  messages_create := fun request w => (Ok [data request], S w)
|}.

(** Three pages, all transcribed. *)
Definition three_pages : Platform := test_platform 3 (fun _ => false).

(** Three pages, the model failing on page 1. *)
Definition flaky_pages : Platform :=
  test_platform 3 (fun d => String.eqb d "1").

(** One page. *)
Definition one_page : Platform := test_platform 1 (fun _ => false).

Definition test_args (s : Z) (e b : option Z) : Args := {|
  pdf_path := "papers/article.pdf";
  output := None;
  dpi := 300;
  start_page := s;
  end_page := e;
  batch_size := b
|}.

(** ** Further definitions for the properties of the code *)

(** The line the outer loop prints before batch [batch_idx]. *)
Definition progress_line (start_page batch_size num_batches n batch_idx : Z)
    : string :=
  "Processing batch " ++ str_int (batch_idx + 1) ++ "/"
  ++ str_int num_batches ++ " (pages "
  ++ str_int (start_page + batch_start batch_size batch_idx + 1) ++ "-"
  ++ str_int (start_page + batch_end batch_size n batch_idx) ++ ")...".

(** The requests and the files written, in the order they happen: a page
    number for an entry into the transcription function, a path for a
    file. *)
Definition timeline (evs : list event) : list (Z + string) :=
  flat_map (fun e => match e with
                     | Transcribe p => [inl p]
                     | WriteFile path _ => [inr path]
                     | _ => []
                     end) evs.

(** The lines printed, in order. *)
Definition printed (evs : list event) : list string :=
  flat_map (fun e => match e with Print line => [line] | _ => [] end) evs.

(** A platform for concrete runs with every outside answer chosen: the
    credential, whether the file is found, the number of pages, the pages
    that cannot be rasterized, the images that cannot be encoded and the
    answer of the model to a request. *)
Definition lab_platform (key : option string) (found : bool) (pages : nat)
    (torn unencodable : Z -> bool) (answer : Request -> result (list string))
    : Platform := {|
  Image := Z;
  Doc := nat;
  World := nat;
  ANTHROPIC_API_KEY := key;
  environ_ANTHROPIC_MODEL := None;
  path_exists := fun _ => found;
  basename := posix_basename;
  splitext_root := posix_splitext_root;
  fitz_open := fun _ => Ok pages;
  page_count := fun d => d;
  rasterize := fun _ page_num _ =>
    if torn page_num then Raise "cannot render page" else Ok page_num;
  encode_png := fun image =>
    if unencodable image then Raise "cannot write mode" else Ok (str_int image);
  messages_create := fun request w => (answer request, S w)
|}.

(** The credential is set but empty. *)
Definition empty_key_platform : Platform :=
  lab_platform (Some "") true 3 (fun _ => false) (fun _ => false)
    (fun request => Ok [data request]).

(** The PDF is not there. *)
Definition no_file_platform : Platform :=
  lab_platform (Some "sk-test") false 3 (fun _ => false) (fun _ => false)
    (fun request => Ok [data request]).

(** Five pages; page 3 cannot be rasterized. *)
Definition torn_five_platform : Platform :=
  lab_platform (Some "sk-test") true 5 (fun k => k =? 3) (fun _ => false)
    (fun request => Ok [data request]).

(** Five pages; the model answers each with two content blocks. *)
Definition five_pages : Platform :=
  lab_platform (Some "sk-test") true 5 (fun _ => false) (fun _ => false)
    (fun request => Ok [data request; "second block"]).

(** Five pages; image 2 cannot be encoded and the model answers with no
    content block. *)
Definition mute_platform : Platform :=
  lab_platform (Some "sk-test") true 5 (fun _ => false) (fun k => k =? 2)
    (fun _ => Ok []).

(** ** [test_claude_version.py] *)

(** The keyword arguments of the script's call to the model: a model, a
    token limit and one user message made of an image and a text. *)
Record PlainRequest : Type := {
  plain_model : string;
  plain_max_tokens : Z;
  plain_media_type : string;
  plain_data : string;
  plain_text : string
}.

(** What the script calls besides the platform. *)
Class Network (platform : Platform) : Type := {
  Message : Type;                                (* the response object *)
  httpx_get_content : string -> result string;   (* httpx.get(url).content *)
  (** [base64.standard_b64encode(...).decode("utf-8")]. *)
  standard_b64encode : string -> string;
  (** [claude_client.messages.create] with the script's arguments. *)
  create_plain : PlainRequest -> World -> result Message * World;
  str_message : Message -> string                (* str(message) *)
}.

Section TestClaudeVersion.

Context {platform : Platform} {network : Network platform}.

(** [f"{s}"] for an optional string. *)
Definition str_option (s : option string) : string :=
  match s with
  | Some v => v
  | None => "None"
  end.

(** [os.environ.get("ANTHROPIC_MODEL", "claude-3-sonnet-latest")]. *)
Definition script_ANTHROPIC_MODEL : string :=
  match environ_ANTHROPIC_MODEL with
  | Some m => m
  | None => "claude-3-sonnet-latest"
  end.

Definition image_url : string :=
  "https://upload.wikimedia.org/wikipedia/commons/a/a7/Camponotus_flavomarginatus_ant.jpg".

Definition image_media_type : string := "image/jpeg".

Definition script_request (image_data : string) : PlainRequest := {|
  plain_model := "claude-3-7-sonnet-20250219";
  plain_max_tokens := 1024;
  plain_media_type := image_media_type;
  plain_data := image_data;
  plain_text := "What is in the above image?"
|}.

(** The module body.  [claude_client] stays [None] unless the credential
    is truthy, and calling a method of [None] raises [AttributeError];
    nothing in the script catches an exception. *)
Definition test_claude_version : M unit :=
  print ("ANTHROPIC_API_KEY: " ++ str_option ANTHROPIC_API_KEY) ;;
  print ("ANTHROPIC_MODEL: " ++ script_ANTHROPIC_MODEL) ;;
  let claude_client_set := truthy_str ANTHROPIC_API_KEY in
  match httpx_get_content image_url with
  | Raise e => raise_uncaught e
  | Ok content =>
      let image_data := standard_b64encode content in
      if negb claude_client_set then
        raise_uncaught "AttributeError: 'NoneType' object has no attribute 'messages'"
      else
        fun st =>
          match create_plain (script_request image_data) (world st) with
          | (Ok message, w') =>
              print (str_message message) {| world := w'; log := log st |}
          | (Raise e, w') => (Uncaught e, {| world := w'; log := log st |})
          end
  end.

End TestClaudeVersion.

(** A platform and a network for concrete runs of the script: the
    download gives [download], the model describes the picture. *)
Definition script_platform (key : option string) : Platform :=
  lab_platform key true 0 (fun _ => false) (fun _ => false) (fun _ => Ok []).

Definition script_network (key : option string) (download : result string)
    : Network (script_platform key) :=
  @Build_Network (script_platform key) string
    (fun _ => download)
    (fun bytes => bytes)
    (fun _ w => (Ok "An ant."%string, S w))
    (fun m => m).

(** ** Strings *)

Lemma str_app_assoc (a b c : string) : ((a ++ b) ++ c = a ++ (b ++ c))%string.
Proof. induction a as [|x a IH]; simpl; [reflexivity | now rewrite IH]. Qed.

Lemma str_length_app (a b : string) :
  String.length (a ++ b) = (String.length a + String.length b)%nat.
Proof. induction a as [|x a IH]; simpl; [reflexivity | now rewrite IH]. Qed.

Lemma substring_prefix (a b : string) :
  substring 0 (String.length a) (a ++ b) = a.
Proof.
  induction a as [|x a IH]; simpl.
  - now destruct b.
  - now rewrite IH.
Qed.

Lemma strip_postamble_app (body : string) :
  strip_postamble (body ++ postamble) = body.
Proof.
  unfold strip_postamble. rewrite str_length_app, Nat.add_sub.
  apply substring_prefix.
Qed.

(** The fold of the specification tracks whether it has emitted a
    fragment yet. *)
Lemma assembled_flag (fragments : list string) :
  fst (fold_right
         (fun f '(last, acc) =>
            (false,
             if last : bool then f else (f ++ page_separator ++ acc)%string))
         (true, ""%string) fragments)
  = match fragments with [] => true | _ :: _ => false end.
Proof.
  destruct fragments as [|f l]; simpl; [reflexivity|].
  now destruct (fold_right _ _ l).
Qed.

Lemma join_assembled_body (fragments : list string) :
  join page_separator fragments = assembled_body fragments.
Proof.
  unfold assembled_body.
  induction fragments as [|f l IH]; [reflexivity|].
  cbn [join fold_right].
  pose proof (assembled_flag l) as Hflag.
  destruct (fold_right _ _ l) as [last acc]. cbn [fst snd] in *.
  destruct l as [|g l]; subst last; [reflexivity|].
  now rewrite IH.
Qed.

Lemma join_snoc (sep x : string) (l : list string) :
  l <> [] -> join sep (l ++ [x]) = (join sep l ++ sep ++ x)%string.
Proof.
  induction l as [|y l IH]; intros Hne; [contradiction|].
  destruct l as [|z l].
  - reflexivity.
  - change (join sep ((y :: z :: l) ++ [x]))
      with (y ++ sep ++ join sep ((z :: l) ++ [x]))%string.
    rewrite IH by discriminate.
    change (join sep (y :: z :: l)) with (y ++ sep ++ join sep (z :: l))%string.
    now rewrite !str_app_assoc.
Qed.

(** A fragment of the list is in the document as it is. *)
Lemma join_keeps (sep f : string) (l1 l2 : list string) :
  occurs_in f (join sep (l1 ++ f :: l2)).
Proof.
  induction l1 as [|x l1 IH].
  - destruct l2 as [|y l2].
    + exists ""%string, ""%string. simpl.
      induction f; simpl; congruence.
    + exists ""%string, (sep ++ join sep (y :: l2))%string. reflexivity.
  - destruct IH as (a & b & E).
    exists (x ++ sep ++ a)%string, b.
    change (join sep ((x :: l1) ++ f :: l2))
      with (join sep (x :: (l1 ++ f :: l2))).
    destruct (l1 ++ f :: l2) as [|y t] eqn:El.
    + now destruct l1.
    + change (join sep (x :: y :: t))
        with (x ++ sep ++ join sep (y :: t))%string.
      rewrite E. now rewrite !str_app_assoc.
Qed.

(** ** Lists, slices and logs *)

#[local] Arguments String.append : simpl never.
#[local] Arguments str_int : simpl never.

Lemma len_nonneg {A : Type} (l : list A) : 0 <= len l.
Proof. unfold len. lia. Qed.

Lemma range_nonpos (n : Z) : n <= 0 -> range n = [].
Proof.
  intros Hn. unfold range.
  replace (Z.to_nat n) with 0%nat by lia. reflexivity.
Qed.

Lemma range_succ (k : nat) :
  range (Z.of_nat (S k)) = range (Z.of_nat k) ++ [Z.of_nat k].
Proof.
  unfold range. rewrite !Nat2Z.id, seq_S, map_app. reflexivity.
Qed.

Lemma length_range (n : Z) : List.length (range n) = Z.to_nat n.
Proof. unfold range. rewrite length_map, length_seq. reflexivity. Qed.

Lemma enumerate_from_app {A : Type} (l1 l2 : list A) (i : Z) :
  enumerate_from i (l1 ++ l2)
  = enumerate_from i l1 ++ enumerate_from (i + len l1) l2.
Proof.
  revert i. induction l1 as [|x l1 IH]; intros i; simpl.
  - f_equal. unfold len. simpl. lia.
  - rewrite IH. do 3 f_equal. unfold len. cbn [List.length]. lia.
Qed.

Lemma enumerate_from_shift {A : Type} (l : list A) (d i : Z) :
  map (fun '(j, x) => (d + j, x)) (enumerate_from i l)
  = enumerate_from (d + i) l.
Proof.
  revert i. induction l as [|x l IH]; intros i; simpl; [reflexivity|].
  rewrite IH. do 2 f_equal. lia.
Qed.

Lemma map_fst_enumerate_from {A : Type} (l : list A) (i : Z) :
  map fst (enumerate_from i l)
  = map (fun k => i + Z.of_nat k) (seq 0 (List.length l)).
Proof.
  revert i. induction l as [|x l IH]; intros i; simpl; [reflexivity|].
  f_equal; [lia|].
  rewrite IH, <- seq_shift, map_map.
  apply map_ext. intros k. lia.
Qed.

Lemma length_enumerate_from {A : Type} (l : list A) (i : Z) :
  List.length (enumerate_from i l) = List.length l.
Proof.
  revert i. induction l as [|x l IH]; intros i; simpl; [reflexivity|].
  now rewrite IH.
Qed.

(** A slice with bounds inside the list is [firstn] of [skipn]. *)
Lemma py_slice_inside {A : Type} (l : list A) (a b : Z) :
  0 <= a -> 0 <= b ->
  py_slice l a b
  = firstn (Z.to_nat (Z.min b (len l)) - Z.to_nat a) (skipn (Z.to_nat a) l).
Proof.
  intros Ha Hb. unfold py_slice, slice_bound.
  destruct (Z.ltb_spec a 0); [lia|]. destruct (Z.ltb_spec b 0); [lia|].
  pose proof (len_nonneg l) as Hl.
  destruct (Z.le_gt_cases a (len l)) as [Hle|Hgt].
  - rewrite (Z.min_l a) by lia. f_equal. lia.
  - rewrite (Z.min_r a) by lia.
    rewrite (skipn_all2 l) by (unfold len in *; lia).
    rewrite (skipn_all2 l) by (unfold len in *; lia).
    now rewrite !firstn_nil.
Qed.

Lemma requests_app (l1 l2 : list event) :
  requests (l1 ++ l2) = requests l1 ++ requests l2.
Proof. apply flat_map_app. Qed.

Lemma writes_app (l1 l2 : list event) :
  writes (l1 ++ l2) = writes l1 ++ writes l2.
Proof. apply flat_map_app. Qed.

Lemma pace_app (l1 l2 : list event) (owed : bool) :
  pace (l1 ++ l2) owed
  = match pace l1 owed with
    | Some owed' => pace l2 owed'
    | None => None
    end.
Proof.
  revert owed. induction l1 as [|e l1 IH]; intros owed; simpl; [reflexivity|].
  destruct e; try apply IH.
  - destruct owed; [reflexivity | apply IH].
  - destruct (seconds <? 0); [reflexivity | apply IH].
Qed.

(** What an accepted log guarantees: between two page requests at least
    one second is slept, and after a page request a pause comes before the
    log ends. *)
Lemma pace_elapsed_nonneg (evs : list event) (owed owed' : bool) :
  pace evs owed = Some owed' -> 0 <= elapsed evs.
Proof.
  revert owed. induction evs as [|e evs IH]; intros owed H; simpl in *; [lia|].
  destruct e; eauto.
  - destruct owed; [discriminate | eauto].
  - destruct (Z.ltb_spec seconds 0); [discriminate|].
    specialize (IH _ H). fold (elapsed evs). lia.
Qed.

Lemma pace_owed_gap (gap rest : list event) (q : Z) (owed' : bool) :
  pace (gap ++ Transcribe q :: rest) true = Some owed' -> 1 <= elapsed gap.
Proof.
  induction gap as [|e gap IH]; simpl; intros H; [discriminate|].
  destruct e; eauto.
  - discriminate.
  - destruct (Z.ltb_spec seconds 0); [discriminate|].
    fold (elapsed gap).
    destruct (Z.leb_spec 1 seconds).
    + rewrite pace_app in H.
      destruct (pace gap false) eqn:E; [|discriminate].
      apply pace_elapsed_nonneg in E. lia.
    + specialize (IH H). lia.
Qed.

Lemma pace_gap (before gap rest : list event) (p q : Z) (owed owed' : bool) :
  pace (before ++ Transcribe p :: gap ++ Transcribe q :: rest) owed
  = Some owed' ->
  1 <= elapsed gap.
Proof.
  rewrite pace_app. destruct (pace before owed) as [o|]; [|discriminate].
  simpl. destruct o; [discriminate|]. apply pace_owed_gap.
Qed.

Lemma pace_owed_pause (rest : list event) :
  pace rest true = Some false ->
  exists quiet s rest',
    rest = quiet ++ Sleep s :: rest' /\ requests quiet = [] /\ 1 <= s.
Proof.
  induction rest as [|e rest IH]; simpl; intros H; [discriminate|].
  destruct e.
  - destruct (IH H) as (quiet & s & rest' & -> & Hq & Hs).
    exists (Print line :: quiet), s, rest'. auto.
  - discriminate.
  - destruct (Z.ltb_spec seconds 0); [discriminate|].
    destruct (Z.leb_spec 1 seconds).
    + exists [], seconds, rest. auto.
    + destruct (IH H) as (quiet & s & rest' & -> & Hq & Hs).
      exists (Sleep seconds :: quiet), s, rest'. auto.
  - destruct (IH H) as (quiet & s & rest' & -> & Hq & Hs).
    exists (WriteFile path content :: quiet), s, rest'. auto.
Qed.

Lemma pace_pause (before rest : list event) (p : Z) :
  pace (before ++ Transcribe p :: rest) false = Some false ->
  exists quiet s rest',
    rest = quiet ++ Sleep s :: rest' /\ requests quiet = [] /\ 1 <= s.
Proof.
  rewrite pace_app. destruct (pace before false) as [o|]; [|discriminate].
  simpl. destruct o; [discriminate|]. apply pace_owed_pause.
Qed.

(** ** The loops *)

Section Loops.

Context {platform : Platform}.

Lemma transcribe_app (w : World) (p1 p2 : list (Z * Image)) :
  transcribe w (p1 ++ p2)
  = (fst (transcribe w p1) ++ fst (transcribe (snd (transcribe w p1)) p2),
     snd (transcribe (snd (transcribe w p1)) p2)).
Proof.
  revert w. induction p1 as [|[k image] p1 IH]; intros w; simpl.
  - now destruct (transcribe w p2).
  - destruct (vision_request image k w) as [r w1].
    rewrite IH. destruct (transcribe w1 p1) as [f1 w2]. reflexivity.
Qed.

Lemma length_transcribe (w : World) (pages : list (Z * Image)) :
  List.length (fst (transcribe w pages)) = List.length pages.
Proof.
  revert w. induction pages as [|[k image] pages IH]; intros w; simpl.
  - reflexivity.
  - destruct (vision_request image k w) as [r w1].
    specialize (IH w1). destruct (transcribe w1 pages). simpl in *.
    now rewrite IH.
Qed.

(** The three ways the attempt for a page can raise: the image cannot be
    encoded, the call to the model raises, or the response has no content
    block. *)
Lemma vision_request_raises (image : Image) (page_num : Z) (w w' : World)
    (msg : string) :
  vision_request image page_num w = (Raise msg, w') <->
  (encode_png image = Raise msg /\ w' = w)
  \/ (exists img_str,
        encode_png image = Ok img_str
        /\ (messages_create (request_for img_str "image/png" page_num) w
            = (Raise msg, w')
            \/ (messages_create (request_for img_str "image/png" page_num) w
                = (Ok [], w')
                /\ msg = "list index out of range"%string))).
Proof.
  unfold vision_request, get_image_base64_and_mime. split.
  - destruct (encode_png image) as [img_str|e].
    + destruct (messages_create _ w) as [[[|first_text content]|e] w1] eqn:E;
        intros H; try discriminate; injection H as <- <-;
        right; exists img_str; auto.
    + intros H. injection H as <- <-. now left.
  - intros [[-> ->]|(img_str & -> & [->|[-> ->]])]; reflexivity.
Qed.

(** One call of the transcription function: always returns, steps the
    service once, logs the entry and pauses nothing. *)
Lemma translate_run (image : Image) (page_num : Z) (st : state) :
  exists evs,
    translate_and_convert_to_latex_with_claude_vision image page_num st
    = (Done (match fst (vision_request image page_num (world st)) with
             | Ok text => text
             | Raise e => error_fragment page_num e
             end),
       {| world := snd (vision_request image page_num (world st));
          log := log st ++ Transcribe page_num :: evs |})
    /\ requests evs = [] /\ writes evs = [] /\ elapsed evs = 0
    /\ forall owed, pace evs owed = Some owed.
Proof.
  unfold translate_and_convert_to_latex_with_claude_vision, bind, emit,
    try_vision, print, ret. simpl.
  destruct (vision_request image page_num (world st)) as [[text|e] w1]; simpl.
  - exists []. auto.
  - exists [Print ("Error in Claude processing: " ++ e)].
    rewrite <- app_assoc. auto.
Qed.

(** The inner loop returns the fragments of its pages in order, one
    request and one pause per page, and writes nothing. *)
Lemma page_loop_run (s bstart : Z) (items : list (Z * Image))
    (acc : list string) (st : state) :
  let pages := map (fun '(i, image) => (s + bstart + i, image)) items in
  exists evs,
    page_loop s bstart items acc st
    = (Done (acc ++ fst (transcribe (world st) pages)),
       {| world := snd (transcribe (world st) pages);
          log := log st ++ evs |})
    /\ requests evs = map fst pages
    /\ writes evs = []
    /\ pace evs false = Some false.
Proof.
  revert acc st. induction items as [|[i image] items IH]; intros acc st; simpl.
  - exists []. rewrite !app_nil_r. destruct st. auto.
  - unfold bind.
    destruct (translate_run image (s + bstart + i) st)
      as (ev1 & -> & Hr1 & Hw1 & _ & Hp1).
    unfold sleep, emit. simpl.
    destruct (vision_request image (s + bstart + i) (world st)) as [r w1].
    simpl.
    match goal with
    | |- context [page_loop s bstart items ?a ?t] =>
        destruct (IH a t) as (ev2 & -> & Hr2 & Hw2 & Hp2)
    end.
    simpl.
    destruct (transcribe w1 _) as [frags w2]. simpl.
    exists (Transcribe (s + bstart + i) :: ev1 ++ Sleep 1 :: ev2).
    repeat split.
    + rewrite <- !app_assoc. reflexivity.
    + simpl. rewrite requests_app, Hr1. simpl. now rewrite Hr2.
    + simpl. rewrite writes_app, Hw1. simpl. exact Hw2.
    + simpl. rewrite pace_app, Hp1. simpl. exact Hp2.
Qed.

End Loops.

Section Batches.

Context {platform : Platform}.

#[local] Arguments combine_latex_pages : simpl never.
#[local] Arguments batch_output : simpl never.
#[local] Arguments batch_images : simpl never.

Lemma length_batch_pages (s : Z) (sel : list Image) (bs b : Z) :
  List.length (batch_pages s sel bs b) = List.length (batch_images sel bs b).
Proof.
  unfold batch_pages, enumerate.
  now rewrite length_map, length_enumerate_from.
Qed.

(** The outer loop over any list of batch indices, for any batch size:
    the fragments are those of the batches' pages transcribed in batch
    order; the requests are the batches' page numbers; each batch leaves
    one intermediate file when there are several batches. *)
Lemma batch_loop_run (out : string) (s bs nb : Z) (sel : list Image)
    (idxs : list Z) (acc : list string) (st : state) :
  let pages := flat_map (batch_pages s sel bs) idxs in
  let fragments := fst (transcribe (world st) pages) in
  exists evs,
    batch_loop out s bs nb sel idxs acc st
    = (Done (acc ++ fragments),
       {| world := snd (transcribe (world st) pages); log := log st ++ evs |})
    /\ requests evs = map fst pages
    /\ writes evs
       = (if 1 <? nb then
            batch_files out idxs
              (chunks (map (fun b => List.length (batch_images sel bs b)) idxs)
                 fragments)
          else [])
    /\ pace evs false = Some false.
Proof.
  revert acc st. induction idxs as [|b idxs IH]; intros acc st; simpl.
  - exists []. rewrite !app_nil_r. destruct st.
    destruct (1 <? nb); auto.
  - unfold bind at 1. unfold print at 1, emit. simpl.
    unfold bind at 1.
    match goal with
    | |- context [page_loop s ?bst ?items [] ?t] =>
        destruct (page_loop_run s bst items [] t) as (ev1 & E1 & Hr1 & Hw1 & Hp1)
    end.
    fold (batch_pages s sel bs b) in E1, Hr1. simpl in E1. rewrite E1.
    clear E1. rewrite transcribe_app.
    pose proof (length_transcribe (world st) (batch_pages s sel bs b)) as HL.
    rewrite length_batch_pages in HL.
    destruct (transcribe (world st) (batch_pages s sel bs b)) as [fb w1].
    simpl in HL |- *.
    set (hdr := Print _).
    set (rest := flat_map (batch_pages s sel bs) idxs).
    rewrite <- HL, firstn_app, Nat.sub_diag, firstn_all, firstn_O, app_nil_r.
    rewrite skipn_app, Nat.sub_diag, skipn_all, skipn_O. simpl.
    destruct (Z.ltb_spec 1 nb) as [Hnb|Hnb].
    + unfold bind at 1. unfold bind at 1.
      unfold write_file at 1, print at 1, emit. simpl.
      match goal with
      | |- context [batch_loop out s bs nb sel idxs ?a ?t] =>
          destruct (IH a t) as (ev2 & -> & Hr2 & Hw2 & Hp2)
      end.
      simpl in *. fold rest in Hr2, Hw2 |- *.
      destruct (Z.ltb_spec 1 nb) as [_|]; [|lia].
      eexists. split; [|split; [|split]].
      * rewrite <- !app_assoc. simpl. reflexivity.
      * simpl. rewrite requests_app, Hr1. simpl. rewrite Hr2.
        now rewrite map_app.
      * simpl. rewrite writes_app, Hw1. simpl. now rewrite Hw2.
      * simpl. rewrite pace_app, Hp1. simpl. exact Hp2.
    + unfold bind at 1. unfold ret at 1.
      match goal with
      | |- context [batch_loop out s bs nb sel idxs ?a ?t] =>
          destruct (IH a t) as (ev2 & -> & Hr2 & Hw2 & Hp2)
      end.
      simpl in *. fold rest in Hr2, Hw2 |- *.
      destruct (Z.ltb_spec 1 nb) as [|_]; [lia|].
      eexists. split; [|split; [|split]].
      * rewrite <- !app_assoc. simpl. reflexivity.
      * simpl. rewrite requests_app, Hr1. rewrite Hr2.
        now rewrite map_app.
      * simpl. rewrite writes_app, Hw1. simpl. now rewrite Hw2.
      * simpl. rewrite pace_app, Hp1. exact Hp2.
Qed.

End Batches.

(** ** Batch arithmetic *)

Section Partition.

Context {platform : Platform}.

Lemma firstn_add {A : Type} (a c : nat) (l : list A) :
  firstn (a + c) l = firstn a l ++ firstn c (skipn a l).
Proof.
  rewrite <- (firstn_skipn a (firstn (a + c) l)) at 1.
  rewrite firstn_firstn, firstn_skipn_comm.
  now replace (Nat.min a (a + c)) with a by lia.
Qed.

(** For a positive batch size, batch [k] is the next [batch_size] items
    after the first [k * batch_size], or what is left of them. *)
Lemma batch_slice_firstn {A : Type} (l : list A) (bs : Z) (k : nat) :
  0 < bs ->
  py_slice l (batch_start bs (Z.of_nat k)) (batch_end bs (len l) (Z.of_nat k))
  = firstn (Z.to_nat bs) (skipn (k * Z.to_nat bs) l).
Proof.
  intros Hbs. unfold batch_start, batch_end.
  pose proof (len_nonneg l) as Hn.
  rewrite py_slice_inside by nia.
  replace (Z.to_nat (Z.of_nat k * bs)) with (k * Z.to_nat bs)%nat by nia.
  set (m := Z.to_nat bs).
  destruct (Z.le_gt_cases ((Z.of_nat k + 1) * bs) (len l)) as [Hle|Hgt].
  - f_equal. unfold len in *. nia.
  - rewrite !firstn_all2; [reflexivity| |]; rewrite length_skipn;
      unfold len in *; nia.
Qed.

Lemma batch_images_firstn (sel : list Image) (bs : Z) (k : nat) :
  0 < bs ->
  batch_images sel bs (Z.of_nat k)
  = firstn (Z.to_nat bs) (skipn (k * Z.to_nat bs) sel).
Proof. apply batch_slice_firstn. Qed.

Lemma batch_pages_enumerate (s : Z) (sel : list Image) (bs b : Z) :
  batch_pages s sel bs b
  = enumerate_from (s + batch_start bs b) (batch_images sel bs b).
Proof.
  unfold batch_pages, enumerate.
  rewrite (enumerate_from_shift _ (s + batch_start bs b) 0).
  f_equal. lia.
Qed.

(** The first [k] batches cover the first [k * batch_size] selected
    pages, in order. *)
Lemma batches_prefix (s : Z) (sel : list Image) (bs : Z) (k : nat) :
  0 < bs ->
  flat_map (batch_pages s sel bs) (range (Z.of_nat k))
  = enumerate_from s (firstn (k * Z.to_nat bs) sel).
Proof.
  intros Hbs. induction k as [|k IH].
  - reflexivity.
  - rewrite range_succ, flat_map_app, IH. simpl flat_map. rewrite app_nil_r.
    rewrite batch_pages_enumerate, batch_images_firstn by assumption.
    replace (S k * Z.to_nat bs)%nat with (k * Z.to_nat bs + Z.to_nat bs)%nat
      by lia.
    rewrite firstn_add, enumerate_from_app. f_equal.
    destruct (Nat.le_gt_cases (k * Z.to_nat bs) (List.length sel)) as [Hle|Hgt].
    + f_equal. unfold len, batch_start. rewrite length_firstn. nia.
    + rewrite skipn_all2 by lia. now rewrite firstn_nil.
Qed.

Lemma num_batches_pos (n bs : Z) :
  0 < bs -> 0 <= n ->
  0 <= num_batches n bs /\ n <= num_batches n bs * bs
  /\ (num_batches n bs - 1) * bs < n + (if n =? 0 then 1 else 0).
Proof.
  intros Hbs Hn. unfold num_batches.
  pose proof (Z.mul_div_le (n + bs - 1) bs Hbs).
  pose proof (Z.mul_succ_div_gt (n + bs - 1) bs Hbs).
  assert (0 <= (n + bs - 1) / bs) by (apply Z.div_pos; lia).
  destruct (Z.eqb_spec n 0); nia.
Qed.

(** Exhaustive and non-overlapping: for a positive batch size, the batches
    taken in order are the selected pages, each once. *)
Lemma batches_partition (s : Z) (sel : list Image) (bs : Z) :
  0 < bs ->
  flat_map (batch_pages s sel bs) (range (num_batches (len sel) bs))
  = enumerate_from s sel.
Proof.
  intros Hbs.
  destruct (num_batches_pos (len sel) bs Hbs (len_nonneg sel)) as (H0 & H1 & _).
  rewrite <- (Z2Nat.id (num_batches (len sel) bs)) by assumption.
  rewrite batches_prefix by assumption.
  rewrite firstn_all2; [reflexivity|]. unfold len in *. nia.
Qed.

(** The default batch size makes one batch of the whole selection. *)
Lemma num_batches_default (n : Z) : 0 < n -> num_batches n n = 1.
Proof.
  intros Hn. unfold num_batches. symmetry.
  apply Z.div_unique with (r := n - 1); lia.
Qed.

(** A negative batch size leaves no page to process: there is at most one
    batch, and its slice is empty. *)
Lemma batches_negative (s : Z) (sel : list Image) (bs : Z) :
  bs < 0 -> 0 < len sel ->
  flat_map (batch_pages s sel bs) (range (num_batches (len sel) bs)) = [].
Proof.
  intros Hbs Hn.
  destruct (Z.eq_dec (len sel) 1) as [E|NE].
  - rewrite E. unfold num_batches.
    replace (1 + bs - 1) with bs by lia. rewrite Z_div_same_full by lia.
    simpl. rewrite app_nil_r. unfold batch_pages, batch_images.
    unfold py_slice, batch_start, batch_end, slice_bound. rewrite E.
    replace (Z.min ((0 + 1) * bs) 1) with bs by lia.
    destruct (Z.ltb_spec bs 0); [|lia].
    replace (Z.max (bs + 1) 0) with 0 by lia. reflexivity.
  - rewrite range_nonpos; [reflexivity|]. unfold num_batches.
    pose proof (Z.mod_neg_bound (len sel + bs - 1) bs Hbs) as Hm.
    pose proof (Z.div_mod (len sel + bs - 1) bs ltac:(lia)) as Hd.
    nia.
Qed.

Lemma pages_between_enumerate (s : Z) (sel : list Image) :
  map fst (enumerate_from s sel) = pages_between s (s + len sel - 1).
Proof.
  rewrite map_fst_enumerate_from. unfold pages_between, len.
  do 2 f_equal. lia.
Qed.

(** The selection of a valid range. *)
Lemma len_selection (images : list Image) (s e : Z) :
  valid_range (len images) s e -> len (selection images s e) = e - s + 1.
Proof.
  intros [Hs He]. unfold selection. rewrite py_slice_inside by lia.
  unfold len in *. rewrite length_firstn, length_skipn. lia.
Qed.

End Partition.

Section Pieces.

Context {platform : Platform}.

Lemma chunks_app {A : Type} (s1 s2 : list nat) (l : list A) :
  chunks (s1 ++ s2) l = chunks s1 l ++ chunks s2 (skipn (list_sum s1) l).
Proof.
  revert l. induction s1 as [|k s1 IH]; intros l; simpl; [reflexivity|].
  now rewrite IH, skipn_skipn, (Nat.add_comm (list_sum s1)).
Qed.

Lemma firstn_min_length {A : Type} (a : nat) (l : list A) :
  firstn (Nat.min a (List.length l)) l = firstn a l.
Proof.
  destruct (Nat.le_gt_cases a (List.length l)).
  - now rewrite Nat.min_l.
  - rewrite Nat.min_r by lia. now rewrite firstn_all, firstn_all2 by lia.
Qed.

(** Cutting the fragments of the whole selection by the batch lengths
    gives, batch by batch, the slice of the fragments at the bounds of
    that batch. *)
Lemma chunks_batches (sel : list Image) (fragments : list string) (bs : Z)
    (k : nat) :
  0 < bs -> List.length fragments = List.length sel ->
  chunks (map (fun b => List.length (batch_images sel bs b))
            (range (Z.of_nat k))) fragments
  = map (batch_fragments fragments bs) (range (Z.of_nat k))
  /\ list_sum (map (fun b => List.length (batch_images sel bs b))
                 (range (Z.of_nat k)))
     = Nat.min (k * Z.to_nat bs) (List.length sel).
Proof.
  intros Hbs HL. induction k as [|k [IH1 IH2]].
  - split; reflexivity.
  - rewrite range_succ, !map_app, chunks_app, IH1, IH2, list_sum_app, IH2.
    simpl map. simpl chunks. simpl list_sum.
    rewrite batch_images_firstn by assumption.
    unfold batch_fragments. rewrite batch_slice_firstn by assumption.
    rewrite length_firstn, length_skipn. split.
    + f_equal. f_equal.
      destruct (Nat.le_gt_cases (k * Z.to_nat bs) (List.length sel)).
      * rewrite (Nat.min_l (k * Z.to_nat bs)) by assumption.
        rewrite <- HL, <- (length_skipn (k * Z.to_nat bs) fragments).
        apply firstn_min_length.
      * rewrite !(skipn_all2 fragments) by lia. now rewrite !firstn_nil.
    + lia.
Qed.

End Pieces.

(** ** Runs of [main] *)

Section Runs.

Context {platform : Platform}.

#[local] Arguments combine_latex_pages : simpl never.
#[local] Arguments batch_output : simpl never.
#[local] Arguments batch_images : simpl never.
#[local] Arguments py_slice : simpl never.
#[local] Arguments join : simpl never.

Lemma check_environment_run (st : state) :
  exists evs,
    check_environment st
    = (Done (truthy_str ANTHROPIC_API_KEY),
       {| world := world st; log := log st ++ evs |})
    /\ requests evs = [] /\ writes evs = []
    /\ forall owed, pace evs owed = Some owed.
Proof.
  unfold check_environment. destruct (truthy_str ANTHROPIC_API_KEY).
  - exists []. rewrite app_nil_r. destruct st. auto.
  - eexists. unfold bind, print, emit, ret. simpl.
    rewrite <- app_assoc. simpl. auto.
Qed.

Lemma extract_run (p : string) (d : Z) (st : state) :
  exists evs,
    extract_pages_as_images p d st
    = (Done (rendered_images p d),
       {| world := world st; log := log st ++ evs |})
    /\ requests evs = [] /\ writes evs = []
    /\ forall owed, pace evs owed = Some owed.
Proof.
  unfold extract_pages_as_images, rendered_images.
  destruct (fitz_open p) as [doc|e].
  - unfold bind, print, emit, ret. simpl.
    destruct (render_pages doc d _ []) as [images|e]; simpl;
      eexists; rewrite <- ?app_assoc; simpl; auto.
  - unfold bind, print, emit, ret. simpl. eexists. auto.
Qed.

(** A run that gets past the checks, for any batch size. *)
Lemma main_run (args : Args) (w : World) :
  run_ready args ->
  let images := rendered_images (pdf_path args) (dpi args) in
  let s := start_page args in
  let sel := selection images s (effective_end_page args (len images)) in
  let bs := or_int (batch_size args) (len sel) in
  let nb := num_batches (len sel) bs in
  let pages := flat_map (batch_pages s sel bs) (range nb) in
  let fragments := fst (transcribe w pages) in
  exists evs,
    main args (initial w)
    = (Done tt, {| world := snd (transcribe w pages); log := evs |})
    /\ requests evs = map fst pages
    /\ writes evs
       = (if 1 <? nb then
            batch_files (output_path args) (range nb)
              (chunks (map (fun b => List.length (batch_images sel bs b))
                         (range nb)) fragments)
          else [])
         ++ [(output_path args, combine_latex_pages fragments)]
    /\ pace evs false = Some false.
Proof.
  intros (Hkey & Hpath & Hrange). cbv zeta in *.
  unfold main. unfold bind at 1.
  destruct (check_environment_run (initial w)) as (ev0 & -> & Hr0 & Hw0 & Hp0).
  rewrite Hkey, Hpath. cbn [negb]. unfold bind at 1.
  match goal with
  | |- context [extract_pages_as_images ?p ?d ?t] =>
      destruct (extract_run p d t) as (ev1 & -> & Hr1 & Hw1 & Hp1)
  end.
  destruct (rendered_images (pdf_path args) (dpi args)) as [|im l] eqn:Eimg.
  { destruct Hrange as [Hs He]. change (@len Image []) with 0 in Hs, He. lia. }
  cbv iota. rewrite <- Eimg in *. clear Eimg im l.
  set (images := rendered_images (pdf_path args) (dpi args)) in *.
  set (s := start_page args) in *.
  set (e := effective_end_page args (len images)) in *.
  pose proof (len_selection images s e Hrange) as Hsel.
  destruct Hrange as [Hs He].
  destruct (Z.ltb_spec s 0); [lia|].
  destruct (Z.leb_spec (len images) s); [lia|]. cbn [orb].
  destruct (Z.ltb_spec e s); [lia|].
  destruct (Z.leb_spec (len images) e); [lia|]. cbn [orb].
  fold (selection images s e).
  set (sel := selection images s e) in *.
  set (bs := or_int (batch_size args) (len sel)).
  assert (Hbs : bs <> 0).
  { unfold bs, or_int. destruct (batch_size args) as [v|]; [|lia].
    destruct (Z.eqb_spec v 0); lia. }
  destruct (Z.eqb_spec bs 0); [contradiction|].
  fold (num_batches (len sel) bs).
  set (nb := num_batches (len sel) bs).
  unfold bind at 1.
  match goal with
  | |- context [batch_loop ?o s bs nb sel ?i ?a ?t] =>
      destruct (batch_loop_run o s bs nb sel i a t)
        as (ev2 & -> & Hr2 & Hw2 & Hp2)
  end.
  simpl in Hr2, Hw2 |- *.
  set (pages := flat_map (batch_pages s sel bs) (range nb)) in *.
  set (fragments := fst (transcribe w pages)) in *.
  unfold bind, write_file, print, emit. simpl.
  eexists. split; [reflexivity|].
  rewrite !requests_app, !writes_app, !pace_app, Hr0, Hr1, Hr2, Hw0, Hw1, Hw2.
  rewrite Hp0, Hp1, Hp2. simpl. rewrite !app_nil_r. auto.
Qed.

(** A run that fails a check exits with status 1 before any page is sent
    or any file written. *)
Lemma main_aborts (args : Args) (w : World) :
  ~ run_ready args ->
  exists evs,
    main args (initial w) = (SysExit 1, {| world := w; log := evs |})
    /\ requests evs = [] /\ writes evs = []
    /\ pace evs false = Some false
    /\ (truthy_str ANTHROPIC_API_KEY = true ->
        path_exists (pdf_path args) = true ->
        rendered_images (pdf_path args) (dpi args) <> [] ->
        exists evs0, evs = evs0 ++ [Print (range_error args)]).
Proof.
  intros Hnot. unfold main. unfold bind at 1.
  destruct (check_environment_run (initial w)) as (ev0 & -> & Hr0 & Hw0 & Hp0).
  destruct (truthy_str ANTHROPIC_API_KEY) eqn:Hkey; cbn [negb].
  2:{ unfold sys_exit. simpl. eexists. split; [reflexivity|].
      repeat split; auto. discriminate. }
  destruct (path_exists (pdf_path args)) eqn:Hpath; cbn [negb].
  2:{ unfold bind, print, emit, sys_exit. simpl. eexists.
      split; [reflexivity|]. rewrite requests_app, writes_app, pace_app, Hr0, Hw0, Hp0.
      repeat split; auto. discriminate. }
  unfold bind at 1.
  match goal with
  | |- context [extract_pages_as_images ?p ?d ?t] =>
      destruct (extract_run p d t) as (ev1 & -> & Hr1 & Hw1 & Hp1)
  end.
  unfold range_error.
  set (images := rendered_images (pdf_path args) (dpi args)) in *.
  destruct images as [|im images'] eqn:Eimg.
  { unfold sys_exit. simpl. eexists. split; [reflexivity|].
    rewrite requests_app, writes_app, pace_app, Hr0, Hw0, Hp0.
    repeat split; auto. intros _ _ C. now contradiction C. }
  rewrite <- Eimg in *.
  set (s := start_page args) in *.
  set (e := effective_end_page args (len images)) in *.
  destruct ((s <? 0) || (len images <=? s)) eqn:Estart.
  { unfold bind, print, emit, sys_exit. simpl. eexists.
    split; [reflexivity|].
    rewrite !requests_app, !writes_app, !pace_app, Hr0, Hw0, Hp0, Hr1, Hw1, Hp1.
    repeat split; auto. intros _ _ _. eexists. reflexivity. }
  destruct ((e <? s) || (len images <=? e)) eqn:Eend.
  { unfold bind, print, emit, sys_exit. simpl. eexists.
    split; [reflexivity|].
    rewrite !requests_app, !writes_app, !pace_app, Hr0, Hw0, Hp0, Hr1, Hw1, Hp1.
    repeat split; auto. intros _ _ _. eexists. reflexivity. }
  exfalso. apply Hnot. unfold run_ready. rewrite Hpath.
  repeat split; auto; simpl; fold images; fold s; fold e;
    apply orb_false_iff in Estart, Eend;
    destruct Estart as [E1 E2], Eend as [E3 E4]; lia.
Qed.

Lemma run_ready_dec (args : Args) : run_ready args \/ ~ run_ready args.
Proof.
  unfold run_ready, valid_range. simpl.
  set (n := len (rendered_images (pdf_path args) (dpi args))).
  destruct (truthy_str ANTHROPIC_API_KEY); [|right; intros [C _]; discriminate].
  destruct (path_exists (pdf_path args));
    [|right; intros (_ & C & _); discriminate].
  destruct (Z_le_dec 0 (start_page args));
    [|right; intros (_ & _ & ? & _); lia].
  destruct (Z_le_dec (start_page args) (effective_end_page args n));
    [|right; intros (_ & _ & ? & _); lia].
  destruct (Z_le_dec (effective_end_page args n) (n - 1));
    [|right; intros (_ & _ & ? & ?); lia].
  left. auto.
Qed.

End Runs.

(** ** Consequences for whole runs *)

Section Consequences.

Context {platform : Platform}.

#[local] Arguments combine_latex_pages : simpl never.
#[local] Arguments batch_output : simpl never.
#[local] Arguments batch_images : simpl never.
#[local] Arguments py_slice : simpl never.

Lemma num_batches_negative (n bs : Z) :
  bs < 0 -> 0 < n -> num_batches n bs <= 1.
Proof.
  intros Hbs Hn. unfold num_batches.
  pose proof (Z.mod_neg_bound (n + bs - 1) bs Hbs) as Hm.
  pose proof (Z.div_mod (n + bs - 1) bs ltac:(lia)) as Hd.
  nia.
Qed.

Lemma or_int_nonneg (b : option Z) (n : Z) :
  0 < n -> (forall v, b = Some v -> 0 <= v) -> 0 < or_int b n.
Proof.
  intros Hn Hb. unfold or_int. destruct b as [v|]; [|assumption].
  specialize (Hb v eq_refl). destruct (Z.eqb_spec v 0); lia.
Qed.

(** With no batch size, a batch size of [0] or a positive one, every page
    of the range is transcribed once, in ascending order, the final
    document holds their fragments in that order, and each batch file
    holds the fragments of its batch. *)
Lemma main_run_partition (args : Args) (w : World) :
  run_ready args ->
  (forall v, batch_size args = Some v -> 0 <= v) ->
  let images := rendered_images (pdf_path args) (dpi args) in
  let s := start_page args in
  let e := effective_end_page args (len images) in
  let sel := selection images s e in
  let bs := or_int (batch_size args) (len sel) in
  let nb := num_batches (len sel) bs in
  let fragments := fst (transcribe w (enumerate_from s sel)) in
  exists evs,
    main args (initial w)
    = (Done tt,
       {| world := snd (transcribe w (enumerate_from s sel)); log := evs |})
    /\ requests evs = pages_between s e
    /\ len fragments = e - s + 1
    /\ writes evs
       = (if 1 <? nb then
            map (fun b => (batch_output (output_path args) b,
                           combine_latex_pages (batch_fragments fragments bs b)))
                (range nb)
          else [])
         ++ [(output_path args, combine_latex_pages fragments)]
    /\ pace evs false = Some false.
Proof.
  intros Hready Hb. cbv zeta.
  destruct (main_run args w Hready) as (evs & E & Hr & Hw & Hp).
  cbv zeta in *.
  pose proof Hready as (_ & _ & Hrange). cbv zeta in Hrange.
  set (images := rendered_images (pdf_path args) (dpi args)) in *.
  set (s := start_page args) in *.
  set (e := effective_end_page args (len images)) in *.
  set (sel := selection images s e) in *.
  pose proof (len_selection images s e Hrange) as Hsel. fold sel in Hsel.
  set (bs := or_int (batch_size args) (len sel)) in *.
  assert (Hbs : 0 < bs).
  { apply or_int_nonneg; [|assumption]. destruct Hrange. lia. }
  rewrite (batches_partition s sel bs Hbs) in E, Hr, Hw.
  exists evs. split; [exact E|]. split; [|split; [|split]].
  - rewrite Hr, pages_between_enumerate. f_equal. lia.
  - unfold len in *. rewrite length_transcribe, length_enumerate_from. lia.
  - rewrite Hw. f_equal.
    destruct (1 <? num_batches (len sel) bs); [|reflexivity].
    destruct (num_batches_pos (len sel) bs Hbs (len_nonneg sel)) as (H0 & _).
    rewrite <- (Z2Nat.id (num_batches (len sel) bs)) by assumption.
    unfold batch_files.
    rewrite (proj1 (chunks_batches sel _ bs _ Hbs
                      ltac:(now rewrite length_transcribe,
                              length_enumerate_from))).
    generalize (range (Z.of_nat (Z.to_nat (num_batches (len sel) bs)))).
    intros idxs. induction idxs as [|b idxs IH]; simpl; [reflexivity|].
    now rewrite IH.
  - exact Hp.
Qed.

(** With a negative batch size no page is transcribed and the final
    document has no fragment. *)
Lemma main_run_negative (args : Args) (w : World) (v : Z) :
  run_ready args ->
  batch_size args = Some v -> v < 0 ->
  exists evs,
    main args (initial w) = (Done tt, {| world := w; log := evs |})
    /\ requests evs = []
    /\ writes evs = [(output_path args, combine_latex_pages [])].
Proof.
  intros Hready Hv Hneg.
  destruct (main_run args w Hready) as (evs & E & Hr & Hw & Hp).
  cbv zeta in *.
  pose proof Hready as (_ & _ & Hrange). cbv zeta in Hrange.
  set (images := rendered_images (pdf_path args) (dpi args)) in *.
  set (s := start_page args) in *.
  set (e := effective_end_page args (len images)) in *.
  set (sel := selection images s e) in *.
  pose proof (len_selection images s e Hrange) as Hsel. fold sel in Hsel.
  assert (Hn : 0 < len sel) by (destruct Hrange; lia).
  assert (Hbs : or_int (batch_size args) (len sel) = v).
  { rewrite Hv. unfold or_int. destruct (Z.eqb_spec v 0); lia. }
  rewrite Hbs in *.
  rewrite (batches_negative s sel v Hneg Hn) in E, Hr, Hw.
  pose proof (num_batches_negative (len sel) v Hneg Hn) as Hnb.
  destruct (Z.ltb_spec 1 (num_batches (len sel) v)); [lia|].
  exists evs. auto.
Qed.

(** Every run keeps the pace. *)
Lemma main_paced (args : Args) (w : World) :
  pace (log (snd (main args (initial w)))) false = Some false.
Proof.
  destruct (run_ready_dec args) as [Hready|Hnot].
  - destruct (main_run args w Hready) as (evs & -> & _ & _ & Hp). exact Hp.
  - destruct (main_aborts args w Hnot) as (evs & -> & _ & _ & Hp & _).
    exact Hp.
Qed.

(** The rendering loop either fails or returns one image per page. *)
Lemma render_pages_ok (doc : Doc) (d : Z) (nums : list Z)
    (acc images : list Image) :
  render_pages doc d nums acc = Ok images ->
  List.length images = (List.length acc + List.length nums)%nat
  /\ forall k, In k nums -> exists img, rasterize doc k d = Ok img.
Proof.
  revert acc. induction nums as [|k nums IH]; intros acc H; simpl in *.
  - injection H as <-. split; [lia | contradiction].
  - destruct (rasterize doc k d) as [img|e] eqn:Ek; [|discriminate].
    destruct (IH _ H) as [HL HA]. rewrite length_app in HL. simpl in HL.
    split; [lia|]. intros k' [<-|Hin]; eauto.
Qed.

Lemma in_range (n : nat) (k : nat) :
  (k < n)%nat -> In (Z.of_nat k) (range (Z.of_nat n)).
Proof.
  intros Hk. unfold range. apply in_map, in_seq. lia.
Qed.

Lemma ascending_shift (s : Z) (n : nat) :
  map (fun i => s + Z.of_nat i) (seq 1 n)
  = map (fun i => s + 1 + Z.of_nat i) (seq 0 n).
Proof.
  rewrite <- seq_shift, map_map. apply map_ext. intros i. lia.
Qed.

Lemma ascending_split (s k : Z) (n : nat) (before after : list Z) :
  map (fun i => s + Z.of_nat i) (seq 0 n) = before ++ k :: after ->
  k = s + len before
  /\ after = map (fun i => k + 1 + Z.of_nat i)
               (seq 0 (n - S (List.length before))).
Proof.
  revert s n. induction before as [|b before IH]; intros s n H.
  - destruct n as [|n]; [discriminate|].
    cbn [seq map app] in H. rewrite ascending_shift in H.
    injection H as Hk Ha. unfold len. cbn [List.length].
    split; [lia|]. replace (S n - 1)%nat with n by lia.
    rewrite <- Ha. subst k. apply map_ext. intros i. lia.
  - destruct n as [|n]; [discriminate|].
    cbn [seq map app] in H. rewrite ascending_shift in H.
    injection H as Hb H. destruct (IH _ _ H) as [Hk Ha].
    unfold len in *. cbn [List.length]. split; [lia|]. exact Ha.
Qed.

(** The suffix of an ascending page range after one of its pages. *)
Lemma pages_between_split (s e k : Z) (before after : list Z) :
  pages_between s e = before ++ k :: after ->
  after = pages_between (k + 1) e.
Proof.
  unfold pages_between. intros H.
  pose proof (f_equal (@List.length Z) H) as HL.
  rewrite length_map, length_seq, length_app in HL. cbn [List.length] in HL.
  destruct (ascending_split _ _ _ _ _ H) as [Hk ->].
  do 2 f_equal. unfold len in Hk. lia.
Qed.

End Consequences.

(** ** DocumentAssembler *)

(** The prompt names the 1-based page number. *)
Example prompt_text :
  String.length (prompt 0) = 760%nat
  /\ substring 9 25 (prompt 41) = "You are looking at page 4"%string
  /\ substring 9 49 (prompt 41)
     = "You are looking at page 42 of a French academic p"%string.
Proof. repeat split; reflexivity. Qed.

(** The literal text of the three fixed pieces. *)
Example page_separator_text :
  page_separator
  = String "010" (String "010" ("% ===== NEW PAGE ====="
                                ++ String "010" (String "010" ""))).
Proof. reflexivity. Qed.

Example postamble_text :
  postamble = String "010" (String "010" "\end{document}").
Proof. reflexivity. Qed.

Example preamble_ends :
  String.length preamble = 341%nat
  /\ prefix (String "010" "\documentclass{amsart}") preamble = true
  /\ substring 312 29 preamble
     = ("\begin{document}" ++ String "010" (String "010" "\maketitle")
        ++ String "010" "")%string.
Proof. repeat split; reflexivity. Qed.

(** C5: for every ordered sequence of fragments the assembler returns the
    fixed preamble, then the fragments joined by the page-separator
    comment, then the fixed postamble.  This is the document the
    specification describes ([assembled_document]); every fragment is in
    it as it was given, and fragments full of LaTeX special characters, or
    holding the separator or the document terminator themselves, come
    out unescaped. *)
Theorem assembler_preamble_fragments_postamble
    (fragments before after : list string) (f : string) :
  combine_latex_pages fragments
  = (preamble ++ join page_separator fragments ++ postamble)%string
  /\ combine_latex_pages fragments = assembled_document fragments
  /\ occurs_in f (combine_latex_pages (before ++ f :: after))
  /\ combine_latex_pages ["50\% & $x_1$ #{~}"; "\end{document}"]
     = (preamble ++ "50\% & $x_1$ #{~}" ++ page_separator ++ "\end{document}"
        ++ postamble)%string
  /\ combine_latex_pages [] = (preamble ++ postamble)%string.
Proof.
  split; [reflexivity|]. split; [|split; [|split; reflexivity]].
  - unfold combine_latex_pages, assembled_document.
    now rewrite join_assembled_body.
  - unfold combine_latex_pages.
    destruct (join_keeps page_separator f before after) as (a & b & ->).
    exists (preamble ++ a)%string, (b ++ postamble)%string.
    now rewrite !str_app_assoc.
Qed.

(** Appending a fragment to a non-empty list keeps the document up to its
    postamble and adds the separator, the fragment and the postamble. *)
Lemma combine_latex_pages_snoc (fragments : list string) (f : string) :
  fragments <> [] ->
  strip_postamble (combine_latex_pages fragments)
  = (preamble ++ join page_separator fragments)%string
  /\ combine_latex_pages (fragments ++ [f])
     = (strip_postamble (combine_latex_pages fragments)
        ++ page_separator ++ f ++ postamble)%string.
Proof.
  intros Hne.
  assert (Hstrip : strip_postamble (combine_latex_pages fragments)
                   = (preamble ++ join page_separator fragments)%string).
  { unfold combine_latex_pages.
    rewrite <- (strip_postamble_app (preamble ++ join page_separator fragments)).
    now rewrite !str_app_assoc. }
  split; [exact Hstrip|]. rewrite Hstrip. unfold combine_latex_pages.
  rewrite join_snoc by assumption. now rewrite !str_app_assoc.
Qed.

(** C6: for all fragments A, B and C, the document assembled from [A; B]
    with its postamble removed is a strict prefix of the document
    assembled from [A; B; C]; what follows it there is the separator
    before C, then C and the postamble. *)
Theorem assembler_two_fragments_prefix_of_three (A B C : string) :
  strict_prefix (strip_postamble (combine_latex_pages [A; B]))
                (combine_latex_pages [A; B; C])
  /\ strip_postamble (combine_latex_pages [A; B])
     = (preamble ++ A ++ page_separator ++ B)%string
  /\ combine_latex_pages [A; B; C]
     = (strip_postamble (combine_latex_pages [A; B])
        ++ page_separator ++ C ++ postamble)%string.
Proof.
  destruct (combine_latex_pages_snoc [A; B] C) as [Hstrip Hthree];
    [discriminate|].
  change ([A; B] ++ [C]) with [A; B; C] in Hthree.
  split; [|split; assumption].
  exists (page_separator ++ C ++ postamble)%string. split; [|exact Hthree].
  discriminate.
Qed.

(** ** BatchPipeline *)

(** C2: when the start page exceeds the end page, or either of them lies
    outside [0, pageCount - 1], the run ends with exit status 1, the
    transcription function is never entered and the remote service is
    left as it was; and when the earlier checks pass (credential present,
    file found, at least one page rendered) the last thing printed is the
    range error. *)
Theorem invalid_range_exits_before_any_request
    (platform : Platform) (args : Args) (w : World) :
  let n := len (rendered_images (pdf_path args) (dpi args)) in
  let s := start_page args in
  let e := effective_end_page args n in
  e < s \/ s < 0 \/ n - 1 < s \/ e < 0 \/ n - 1 < e ->
  exists evs,
    main args (initial w) = (SysExit 1, {| world := w; log := evs |})
    /\ requests evs = []
    /\ (truthy_str ANTHROPIC_API_KEY = true ->
        path_exists (pdf_path args) = true ->
        rendered_images (pdf_path args) (dpi args) <> [] ->
        exists evs0, evs = evs0 ++ [Print (range_error args)]).
Proof.
  intros n s e Hbad.
  assert (Hnot : ~ run_ready args).
  { intros (_ & _ & [Hs He]). fold n s e in Hs, He. lia. }
  destruct (main_aborts args w Hnot) as (evs & E & Hr & _ & _ & Hmsg).
  exists evs. auto.
Qed.

Lemma invalid_range_exits_before_any_request_witness :
  exists evs,
    main (platform := three_pages)
      (test_args 2 (Some 1) None) (initial (platform := three_pages) 0%nat)
    = (SysExit 1, @Build_state three_pages 0%nat evs)
    /\ requests evs = []
    /\ (truthy_str (ANTHROPIC_API_KEY (Platform := three_pages)) = true ->
        path_exists (Platform := three_pages) "papers/article.pdf" = true ->
        rendered_images (platform := three_pages) "papers/article.pdf" 300
        <> [] ->
        exists evs0,
          evs = evs0 ++ [Print (range_error (platform := three_pages)
                                  (test_args 2 (Some 1) None))]).
Proof.
  apply (invalid_range_exits_before_any_request
           three_pages (test_args 2 (Some 1) None) 0%nat).
  left. vm_compute. reflexivity.
Defined.

(** C8: when the document cannot be opened, or some page of it cannot be
    rasterized, the renderer returns the empty list, and [main] then exits
    with status 1 without entering the transcription function.  In all
    cases the renderer returns either nothing or one image for every page
    of the document, never a part of them. *)
Theorem render_failure_returns_no_pages
    (platform : Platform) (args : Args) (w : World) (st : state) :
  ((exists e, fitz_open (pdf_path args) = Raise e)
   \/ (exists doc k e,
         fitz_open (pdf_path args) = Ok doc
         /\ (k < page_count doc)%nat
         /\ rasterize doc (Z.of_nat k) (dpi args) = Raise e) ->
   fst (extract_pages_as_images (pdf_path args) (dpi args) st) = Done []
   /\ exists evs,
        main args (initial w) = (SysExit 1, {| world := w; log := evs |})
        /\ requests evs = [])
  /\ (fst (extract_pages_as_images (pdf_path args) (dpi args) st) = Done []
      \/ exists doc images,
           fitz_open (pdf_path args) = Ok doc
           /\ fst (extract_pages_as_images (pdf_path args) (dpi args) st)
              = Done images
           /\ List.length images = page_count doc).
Proof.
  destruct (extract_run (pdf_path args) (dpi args) st) as (ev & E & _).
  rewrite E. cbn [fst]. split.
  - intros Hfail.
    assert (Hnone : rendered_images (pdf_path args) (dpi args) = []).
    { unfold rendered_images.
      destruct Hfail as [[e ->]|(doc & k & e & -> & Hk & Hr)]; [reflexivity|].
      destruct (render_pages doc (dpi args) _ []) as [images|e'] eqn:Er;
        [|reflexivity].
      destruct (render_pages_ok _ _ _ _ _ Er) as [_ Hall].
      destruct (Hall _ (in_range _ _ Hk)) as [img Himg]. congruence. }
    split; [now rewrite Hnone|].
    assert (Hnot : ~ run_ready args).
    { intros (_ & _ & [Hs He]). rewrite Hnone in Hs, He.
      change (@len Image []) with 0 in Hs, He. lia. }
    destruct (main_aborts args w Hnot) as (evs & Em & Hr & _).
    exists evs. auto.
  - unfold rendered_images.
    destruct (fitz_open (pdf_path args)) as [doc|e]; [|now left].
    destruct (render_pages doc (dpi args) _ []) as [images|e'] eqn:Er;
      [|now left].
    right. exists doc, images. repeat split.
    destruct (render_pages_ok _ _ _ _ _ Er) as [HL _].
    rewrite HL, length_range. simpl. lia.
Qed.

Lemma render_failure_returns_no_pages_witness :
  fst (extract_pages_as_images (platform := torn_platform)
         "papers/article.pdf" 300 (initial (platform := torn_platform) 0%nat))
  = Done []
  /\ exists evs,
       main (platform := torn_platform) (test_args 0 None None)
         (initial (platform := torn_platform) 0%nat)
       = (SysExit 1, @Build_state torn_platform 0%nat evs)
       /\ requests evs = [].
Proof.
  apply (proj1 (render_failure_returns_no_pages torn_platform
                  (test_args 0 None None) 0%nat
                  (initial (platform := torn_platform) 0%nat))).
  right. exists 3%nat, 1%nat, "cannot render page"%string.
  repeat split. simpl. lia.
Defined.

(** C9: in every run, whatever its arguments and whatever the service
    answers, at least one second is slept between two consecutive entries
    into the transcription function, and every entry is followed by a
    sleep of at least one second before anything else is requested and
    before the run ends. *)
Theorem pause_between_consecutive_requests
    (platform : Platform) (args : Args) (w : World) :
  let evs := log (snd (main args (initial w))) in
  (forall before p gap q rest,
      evs = before ++ Transcribe p :: gap ++ Transcribe q :: rest ->
      1 <= elapsed gap)
  /\ (forall before p rest,
         evs = before ++ Transcribe p :: rest ->
         exists quiet seconds rest',
           rest = quiet ++ Sleep seconds :: rest'
           /\ requests quiet = [] /\ 1 <= seconds).
Proof.
  intros evs. pose proof (main_paced args w) as Hp. fold evs in Hp.
  split.
  - intros before p gap q rest E. rewrite E in Hp.
    exact (pace_gap _ _ _ _ _ _ _ Hp).
  - intros before p rest E. rewrite E in Hp.
    exact (pace_pause _ _ _ Hp).
Qed.

Lemma pause_between_consecutive_requests_witness :
  1 <= elapsed [Sleep 1].
Proof.
  apply (proj1 (pause_between_consecutive_requests
                  three_pages (test_args 0 None None) 0%nat))
    with (before := [Print "Extracting 3 pages as images...";
                     Print "Processing batch 1/1 (pages 1-3)..."])
         (p := 0) (q := 1)
         (rest := [Sleep 1; Transcribe 2; Sleep 1;
                   WriteFile "article_translated_en.tex"
                     (combine_latex_pages
                        ["\section{0}"; "\section{1}"; "\section{2}"]);
                   Print "Translation and conversion complete. LaTeX file saved to: article_translated_en.tex"]).
  vm_compute. reflexivity.
Defined.

(** C10: [--batch-size 0] runs exactly as with the option left out: the
    truthiness test of [or] replaces 0 by the length of the selection.  On
    a run that passes the checks this makes a single batch, and the only
    file written is the final document, holding the fragments of the
    whole range. *)
Theorem batch_size_zero_is_the_default
    (platform : Platform) (args : Args) (w : World) :
  main (with_batch_size args (Some 0)) (initial w)
  = main (with_batch_size args None) (initial w)
  /\ (forall n, or_int (Some 0) n = or_int None n /\ or_int None n = n)
  /\ (run_ready args ->
      let images := rendered_images (pdf_path args) (dpi args) in
      let s := start_page args in
      let sel := selection images s (effective_end_page args (len images)) in
      num_batches (len sel) (or_int (Some 0) (len sel)) = 1
      /\ writes (log (snd (main (with_batch_size args (Some 0)) (initial w))))
         = [(output_path args,
             combine_latex_pages (fst (transcribe w (enumerate_from s sel))))]).
Proof.
  split; [reflexivity|]. split; [intros n; split; reflexivity|].
  intros Hready. cbv zeta.
  assert (Hready0 : run_ready (with_batch_size args (Some 0))) by exact Hready.
  destruct (main_run_partition (with_batch_size args (Some 0)) w Hready0)
    as (evs & E & _ & _ & Hw & _).
  { intros v Hv. injection Hv as <-. lia. }
  cbv zeta in Hw. rewrite E. cbn [snd log]. clear E.
  destruct Hready as (_ & _ & Hrange).
  pose proof (len_selection _ _ _ Hrange) as Hsel.
  destruct Hrange as [Hs He].
  change (or_int (batch_size (with_batch_size args (Some 0))) ?n) with n in Hw.
  change (effective_end_page (with_batch_size args (Some 0)) ?n)
    with (effective_end_page args n) in Hw.
  change (output_path (with_batch_size args (Some 0)))
    with (output_path args) in Hw.
  cbn [with_batch_size pdf_path dpi start_page] in Hw.
  change (or_int (Some 0) ?n) with n.
  rewrite num_batches_default in * by lia.
  split; [reflexivity|]. exact Hw.
Qed.

Lemma batch_size_zero_is_the_default_witness :
  num_batches 3 (or_int (Some 0) 3) = 1
  /\ writes (log (snd (main (platform := three_pages)
                         (test_args 0 None (Some 0)) (initial (platform := three_pages) 0%nat))))
     = [("article_translated_en.tex",
         combine_latex_pages ["\section{0}"; "\section{1}"; "\section{2}"])].
Proof.
  apply (proj2 (proj2 (batch_size_zero_is_the_default
                         three_pages (test_args 0 None None) 0%nat))).
  repeat split; vm_compute; congruence.
Defined.

Section FailedPages.

Context {platform : Platform}.

Lemma transcribe_failed (w : World) (pages : list (Z * Image)) (i : nat)
    (k : Z) (image : Image) (msg : string) :
  nth_error pages i = Some (k, image) ->
  (forall w', fst (vision_request image k w') = Raise msg) ->
  nth_error (fst (transcribe w pages)) i = Some (error_fragment k msg).
Proof.
  intros Hnth Hfail. revert w i Hnth.
  induction pages as [|[k0 image0] pages IH]; intros w i Hnth.
  - destruct i; discriminate.
  - cbn [transcribe].
    destruct (vision_request image0 k0 w) as [r w1] eqn:Ev.
    specialize (IH w1). destruct (transcribe w1 pages) as [frags w2].
    destruct i as [|i]; cbn [fst nth_error] in *.
    + injection Hnth as -> ->.
      pose proof (Hfail w) as Hw. rewrite Ev in Hw. cbn in Hw. now subst r.
    + now apply IH.
Qed.

Lemma nth_error_enumerate_from (l : list Image) (s : Z) (i : nat)
    (image : Image) :
  nth_error l i = Some image ->
  nth_error (enumerate_from s l) i = Some (s + Z.of_nat i, image).
Proof.
  revert s i. induction l as [|x l IH]; intros s i H.
  - destruct i; discriminate.
  - destruct i as [|i]; cbn [enumerate_from nth_error] in *.
    + injection H as ->. do 2 f_equal. lia.
    + rewrite (IH (s + 1) i H). do 2 f_equal. lia.
Qed.

Lemma nth_error_selection (images : list Image) (s e k : Z) :
  valid_range (len images) s e -> s <= k <= e ->
  nth_error (selection images s e) (Z.to_nat (k - s))
  = nth_error images (Z.to_nat k).
Proof.
  intros [Hs He] Hk. unfold selection. rewrite py_slice_inside by lia.
  rewrite nth_error_firstn, nth_error_skipn.
  destruct (Nat.ltb_spec (Z.to_nat (k - s))
              (Z.to_nat (Z.min (e + 1) (len images)) - Z.to_nat s)).
  - f_equal. lia.
  - unfold len in *. lia.
Qed.

Lemma in_pages_between (s e k : Z) : In k (pages_between s e) -> s <= k <= e.
Proof.
  unfold pages_between. intros H. apply in_map_iff in H.
  destruct H as (i & <- & Hi). apply in_seq in Hi. lia.
Qed.

End FailedPages.

(** C3: when the attempt for page [k] raises (while encoding the image,
    calling the model or reading the first content block, see
    [vision_request_raises]), the transcription function returns, and
    returns the comment "% Error processing page k+1", a new line, "% " and
    the exception message, then an empty line.  In any run that passes the
    checks, whatever the attempts do, [main] runs to its end, and once page
    [k] has been requested the requests that follow are exactly those of
    the pages [k+1 .. e], in order.  If the model fails on the requested
    page [k] whatever its state, the fragment of page [k] in the final
    document is that error comment. *)
Theorem failed_page_becomes_error_comment_and_run_goes_on
    (platform : Platform) (args : Args) (w : World) (st : state)
    (image : Image) (k : Z) (msg : string) :
  let images := rendered_images (pdf_path args) (dpi args) in
  let s := start_page args in
  let e := effective_end_page args (len images) in
  let run := main args (initial w) in
  (fst (vision_request image k (world st)) = Raise msg ->
   fst (translate_and_convert_to_latex_with_claude_vision image k st)
   = Done (error_fragment k msg)
   /\ error_fragment k msg
      = ("% Error processing page " ++ str_int (k + 1) ++ String "010" "% "
         ++ msg ++ String "010" (String "010" ""))%string
   /\ occurs_in ("Error processing page " ++ str_int (k + 1))
        (error_fragment k msg)
   /\ occurs_in msg (error_fragment k msg))
  /\ (run_ready args ->
      fst run = Done tt
      /\ (forall before after,
             requests (log (snd run)) = before ++ k :: after ->
             after = pages_between (k + 1) e)
      /\ (In k (requests (log (snd run))) ->
          nth_error images (Z.to_nat k) = Some image ->
          (forall w', fst (vision_request image k w') = Raise msg) ->
          exists fragments,
            last (writes (log (snd run))) (""%string, ""%string)
            = (output_path args, combine_latex_pages fragments)
            /\ len fragments = e - s + 1
            /\ nth_error fragments (Z.to_nat (k - s))
               = Some (error_fragment k msg))).
Proof.
  intros images s e run. split.
  - intros Hfail.
    destruct (translate_run image k st) as (evs & -> & _).
    rewrite Hfail. cbn [fst]. split; [reflexivity|]. split; [reflexivity|].
    split.
    + exists "% "%string, (String "010" "% " ++ msg
                           ++ String "010" (String "010" ""))%string.
      unfold error_fragment. now rewrite !str_app_assoc.
    + exists ("% Error processing page " ++ str_int (k + 1)
              ++ String "010" "% ")%string, (String "010" (String "010" "")).
      unfold error_fragment. now rewrite !str_app_assoc.
  - intros Hready.
    assert (Hcases : (forall v, batch_size args = Some v -> 0 <= v)
                     \/ exists v, batch_size args = Some v /\ v < 0).
    { destruct (batch_size args) as [v|]; [|left; discriminate].
      destruct (Z_lt_dec v 0); [right; eauto|].
      left. intros v' Hv. injection Hv as <-. lia. }
    destruct Hcases as [Hpos|(v & Hv & Hneg)].
    + destruct (main_run_partition args w Hready Hpos)
        as (evs & E & Hr & HL & Hw & _).
      cbv zeta in *. fold images s e in E, Hr, HL, Hw.
      unfold run. rewrite E. cbn [fst snd log]. split; [reflexivity|].
      rewrite Hr. split.
      * intros before after. apply pages_between_split.
      * intros Hin Himg Hfail. apply in_pages_between in Hin.
        eexists. rewrite Hw, last_last. split; [reflexivity|].
        split; [exact HL|].
        apply transcribe_failed with (image := image); [|exact Hfail].
        replace k with (s + Z.of_nat (Z.to_nat (k - s))) at 2 by lia.
        apply nth_error_enumerate_from.
        destruct Hready as (_ & _ & Hrange).
        now rewrite nth_error_selection.
    + destruct (main_run_negative args w v Hready Hv Hneg)
        as (evs & E & Hr & _).
      unfold run. rewrite E. cbn [fst snd log]. split; [reflexivity|].
      rewrite Hr. split.
      * intros before after H. now destruct before.
      * contradiction.
Qed.

Lemma failed_page_becomes_error_comment_and_run_goes_on_witness :
  (fst (translate_and_convert_to_latex_with_claude_vision
          (platform := flaky_pages) 1 1 (initial (platform := flaky_pages) 0%nat))
   = Done (error_fragment 1 "overloaded"))
  /\ [2] = pages_between 2 2
  /\ exists fragments,
       last (writes (log (snd (main (platform := flaky_pages)
                                 (test_args 0 None (Some 2))
                                 (initial (platform := flaky_pages) 0%nat)))))
            (""%string, ""%string)
       = (output_path (platform := flaky_pages) (test_args 0 None (Some 2)),
          combine_latex_pages fragments)
       /\ len fragments = 2 - 0 + 1
       /\ nth_error fragments (Z.to_nat (1 - 0))
          = Some (error_fragment 1 "overloaded").
Proof.
  pose proof (failed_page_becomes_error_comment_and_run_goes_on
                flaky_pages (test_args 0 None (Some 2)) 0%nat
                (initial (platform := flaky_pages) 0%nat) 1 1 "overloaded")
    as [Hcall Hrun].
  split; [apply Hcall; reflexivity|].
  destruct Hrun as (_ & Hnext & Hfrag).
  { repeat split; vm_compute; congruence. }
  split.
  - apply (Hnext [0]). vm_compute. reflexivity.
  - apply Hfrag.
    + vm_compute. auto.
    + reflexivity.
    + intros w'. reflexivity.
Defined.

Section PageNumbers.

Context {platform : Platform}.

(** For a positive batch size the page numbers of the batches, taken in
    batch order, are the selected range, each page once. *)
Lemma batch_page_nums_partition (s : Z) (sel : list Image) (bs : Z) :
  0 < bs ->
  flat_map (batch_page_nums s sel bs) (range (num_batches (len sel) bs))
  = pages_between s (s + len sel - 1).
Proof.
  intros Hbs. rewrite <- pages_between_enumerate.
  rewrite <- (batches_partition s sel bs Hbs).
  generalize (range (num_batches (len sel) bs)). intros idxs.
  induction idxs as [|b idxs IH]; [reflexivity|].
  cbn [flat_map]. rewrite map_app, IH. reflexivity.
Qed.

End PageNumbers.

(** C7: in a run with more than one batch the files written are, in
    order, one file per batch, named after the output file with the
    suffix "_batch", the 1-based batch index and ".tex", and holding the
    document assembled from the fragments of that batch, and then the
    final document with the fragments of all pages.  On a 3-page input
    with batch size 2 and range [0, 2] the batches are pages [0, 1] and
    page [2]; two intermediate files and the final file are written, and
    the final file holds the fragments of pages 0, 1, 2 in that order. *)
Theorem one_intermediate_file_per_batch
    (platform : Platform) (args : Args) (w : World) :
  let images := rendered_images (pdf_path args) (dpi args) in
  let s := start_page args in
  let e := effective_end_page args (len images) in
  let sel := selection images s e in
  let bs := or_int (batch_size args) (len sel) in
  let nb := num_batches (len sel) bs in
  let fragments := fst (transcribe w (enumerate_from s sel)) in
  let scenario :=
    main (platform := three_pages) (test_args 0 (Some 2) (Some 2))
      (initial (platform := three_pages) 0%nat) in
  (run_ready args -> 1 < nb ->
   writes (log (snd (main args (initial w))))
   = map (fun b =>
            ((splitext_root (output_path args) ++ "_batch" ++ str_int (b + 1)
              ++ ".tex")%string,
             combine_latex_pages (batch_fragments fragments bs b)))
         (range nb)
     ++ [(output_path args, combine_latex_pages fragments)]
   /\ len fragments = e - s + 1
   /\ requests (log (snd (main args (initial w)))) = pages_between s e)
  /\ fst scenario = Done tt
  /\ map (batch_page_nums (platform := three_pages) 0 [0; 1; 2] 2)
       (range (num_batches 3 2))
     = [[0; 1]; [2]]
  /\ requests (log (snd scenario)) = [0; 1; 2]
  /\ writes (log (snd scenario))
     = [("article_translated_en_batch1.tex"%string,
         combine_latex_pages ["\section{0}"; "\section{1}"]);
        ("article_translated_en_batch2.tex"%string,
         combine_latex_pages ["\section{2}"]);
        ("article_translated_en.tex"%string,
         combine_latex_pages ["\section{0}"; "\section{1}"; "\section{2}"])].
Proof.
  intros images s e sel bs nb fragments scenario.
  split; [|repeat split; vm_compute; reflexivity].
  intros Hready Hnb.
  pose proof Hready as (_ & _ & Hrange). cbv zeta in Hrange.
  fold images s e in Hrange.
  pose proof (len_selection _ _ _ Hrange) as Hsel. fold sel in Hsel.
  assert (Hpos : forall v, batch_size args = Some v -> 0 <= v).
  { intros v Hv. destruct (Z_lt_dec v 0) as [Hneg|]; [|lia].
    assert (bs = v).
    { unfold bs. rewrite Hv. unfold or_int. destruct (Z.eqb_spec v 0); lia. }
    pose proof (num_batches_negative (len sel) v Hneg) as Hle.
    destruct Hrange. subst v. fold nb in Hle. lia. }
  destruct (main_run_partition args w Hready Hpos)
    as (evs & E & Hr & HL & Hw & _).
  cbv zeta in *. fold images s e sel bs nb fragments in E, Hr, HL, Hw.
  rewrite E. cbn [snd log].
  destruct (Z.ltb_spec 1 nb); [|lia]. auto.
Qed.

Lemma one_intermediate_file_per_batch_witness :
  writes (log (snd (main (platform := three_pages)
                      (test_args 0 (Some 2) (Some 1))
                      (initial (platform := three_pages) 0%nat))))
  = [("article_translated_en_batch1.tex"%string,
      combine_latex_pages ["\section{0}"]);
     ("article_translated_en_batch2.tex"%string,
      combine_latex_pages ["\section{1}"]);
     ("article_translated_en_batch3.tex"%string,
      combine_latex_pages ["\section{2}"]);
     ("article_translated_en.tex"%string,
      combine_latex_pages ["\section{0}"; "\section{1}"; "\section{2}"])]
  /\ 3 = 2 - 0 + 1
  /\ [0; 1; 2] = pages_between 0 2.
Proof.
  pose proof (proj1 (one_intermediate_file_per_batch
                       three_pages (test_args 0 (Some 2) (Some 1)) 0%nat))
    as H.
  destruct H as (Hw & HL & Hr).
  - repeat split; vm_compute; congruence.
  - vm_compute. reflexivity.
  - split; [exact Hw|]. split; [exact HL | exact Hr].
Defined.

(** C1 fails on the code for a negative batch size.  For every run that
    passes the checks, so for every valid range [s, e], and every negative
    [--batch-size], [main] ends with status 0 although the transcription
    function is never entered, and the final document is assembled from no
    fragment, where the range holds e - s + 1 >= 1 pages. *)
Theorem negative_batch_size_leaves_final_document_empty
    (platform : Platform) (args : Args) (w : World) (v : Z) :
  let images := rendered_images (pdf_path args) (dpi args) in
  let s := start_page args in
  let e := effective_end_page args (len images) in
  run_ready args ->
  batch_size args = Some v -> v < 0 ->
  exists evs,
    main args (initial w) = (Done tt, {| world := w; log := evs |})
    /\ exit_code (fst (main args (initial w))) = 0
    /\ requests evs = []
    /\ writes evs = [(output_path args, combine_latex_pages [])]
    /\ len (pages_between s e) = e - s + 1
    /\ 1 <= e - s + 1.
Proof.
  intros images s e Hready Hv Hneg.
  destruct (main_run_negative args w v Hready Hv Hneg) as (evs & E & Hr & Hw).
  exists evs. rewrite E. repeat split; try assumption.
  - unfold pages_between, len. rewrite length_map, length_seq.
    destruct Hready as (_ & _ & Hs & He). fold images s e in Hs, He. lia.
  - destruct Hready as (_ & _ & Hs & He). fold images s e in Hs, He. lia.
Qed.

Lemma negative_batch_size_leaves_final_document_empty_witness :
  exists evs,
    main (platform := one_page) (test_args 0 None (Some (-1)))
      (initial (platform := one_page) 0%nat)
    = (Done tt, @Build_state one_page 0%nat evs)
    /\ exit_code (fst (main (platform := one_page)
                         (test_args 0 None (Some (-1)))
                         (initial (platform := one_page) 0%nat))) = 0
    /\ requests evs = []
    /\ writes evs
       = [("article_translated_en.tex"%string, combine_latex_pages [])]
    /\ len (pages_between 0 0) = 0 - 0 + 1
    /\ 1 <= 0 - 0 + 1.
Proof.
  apply (negative_batch_size_leaves_final_document_empty
           one_page (test_args 0 None (Some (-1))) 0%nat (-1)).
  - repeat split; vm_compute; congruence.
  - reflexivity.
  - lia.
Defined.

(** C4 fails on the code for a negative batch size.  For every non-empty
    selection and every negative batch size there is at most one batch and
    the page numbers of the batches put together are no page at all, where
    the selected range is not empty.  On one selected page and batch size
    -1 the single batch is the empty slice [selected_images[0:-1]]. *)
Theorem negative_batch_size_batches_cover_nothing
    (platform : Platform) (s bs : Z) (sel : list Image) :
  bs < 0 -> 0 < len sel ->
  num_batches (len sel) bs <= 1
  /\ flat_map (batch_page_nums s sel bs) (range (num_batches (len sel) bs))
     = []
  /\ pages_between s (s + len sel - 1) <> []
  /\ (len sel = 1 ->
      num_batches (len sel) bs = 1 /\ batch_images sel bs 0 = []).
Proof.
  intros Hbs Hn. split; [now apply num_batches_negative|].
  pose proof (batches_negative s sel bs Hbs Hn) as Hnone.
  split; [|split].
  - revert Hnone. generalize (range (num_batches (len sel) bs)).
    intros idxs. induction idxs as [|b idxs IH]; [reflexivity|].
    cbn [flat_map]. intros H. apply app_eq_nil in H. destruct H as [Hb Hrest].
    unfold batch_page_nums. rewrite Hb. now apply IH.
  - rewrite <- pages_between_enumerate.
    destruct sel; [unfold len in Hn; simpl in Hn; lia | discriminate].
  - intros H1. rewrite H1 in *.
    assert (Hnb : num_batches 1 bs = 1).
    { unfold num_batches. replace (1 + bs - 1) with bs by lia.
      apply Z_div_same_full. lia. }
    split; [exact Hnb|]. rewrite Hnb in Hnone.
    change (range 1) with [0] in Hnone. cbn [flat_map] in Hnone.
    apply app_eq_nil in Hnone. destruct Hnone as [Hb _].
    apply (f_equal (@List.length _)) in Hb.
    rewrite length_batch_pages in Hb.
    now destruct (batch_images sel bs 0).
Qed.

Lemma negative_batch_size_batches_cover_nothing_witness :
  num_batches 1 (-1) <= 1
  /\ flat_map (batch_page_nums (platform := one_page) 0 [0] (-1))
       (range (num_batches 1 (-1)))
     = []
  /\ pages_between 0 (0 + 1 - 1) <> []
  /\ (1 = 1 ->
      num_batches 1 (-1) = 1
      /\ batch_images (platform := one_page) [0] (-1) 0 = []).
Proof.
  apply (negative_batch_size_batches_cover_nothing one_page 0 (-1) [0]).
  - lia.
  - reflexivity.
Defined.

(** ** Further properties of the code *)

(** *** Start-up checks and exit status *)

(** X1: when the credential is unset or set to the empty string, [main]
    prints the two lines naming ANTHROPIC_API_KEY and exits with status 1;
    this comes before the check of the file, so nothing else is printed,
    rendered, requested or written, whatever the arguments. *)
Theorem missing_api_key_exits_first
    (platform : Platform) (args : Args) (w : World) :
  ANTHROPIC_API_KEY = None \/ ANTHROPIC_API_KEY = Some ""%string ->
  main args (initial w)
  = (SysExit 1,
     {| world := w;
        log := [Print "Error: Missing required environment variables: ANTHROPIC_API_KEY";
                Print "Please set these variables in your system environment."] |}).
Proof.
  intros Hkey. unfold main, bind, check_environment.
  destruct Hkey as [-> | ->]; reflexivity.
Qed.

Lemma missing_api_key_exits_first_witness :
  main (platform := empty_key_platform) (test_args 0 None None)
    (initial (platform := empty_key_platform) 0%nat)
  = (SysExit 1,
     @Build_state empty_key_platform 0%nat
       [Print "Error: Missing required environment variables: ANTHROPIC_API_KEY";
        Print "Please set these variables in your system environment."]).
Proof.
  apply (missing_api_key_exits_first empty_key_platform
           (test_args 0 None None) 0%nat).
  right. reflexivity.
Defined.

(** X2: with the credential present, a path that does not exist makes
    [main] print "Error: File <path> not found." and exit with status 1;
    the document is not opened (no "Extracting" line), nothing is
    requested or written. *)
Theorem missing_file_exits_before_rendering
    (platform : Platform) (args : Args) (w : World) :
  truthy_str ANTHROPIC_API_KEY = true ->
  path_exists (pdf_path args) = false ->
  main args (initial w)
  = (SysExit 1,
     {| world := w;
        log := [Print ("Error: File " ++ pdf_path args ++ " not found.")] |}).
Proof.
  intros Hkey Hpath. unfold main, bind, check_environment.
  rewrite Hkey. cbn [negb]. unfold ret. cbn [negb]. rewrite Hpath.
  reflexivity.
Qed.

Lemma missing_file_exits_before_rendering_witness :
  main (platform := no_file_platform) (test_args 0 None None)
    (initial (platform := no_file_platform) 0%nat)
  = (SysExit 1,
     @Build_state no_file_platform 0%nat
       [Print "Error: File papers/article.pdf not found."]).
Proof.
  apply (missing_file_exits_before_rendering no_file_platform
           (test_args 0 None None) 0%nat); reflexivity.
Defined.


(** X4: a batch size at least as large as the number of selected pages
    makes a single batch: no intermediate file is written, only the final
    document, with the fragments of the whole range. *)
Theorem batch_size_covering_the_range_writes_only_the_final_file
    (platform : Platform) (args : Args) (w : World) (b : Z) :
  let images := rendered_images (pdf_path args) (dpi args) in
  let s := start_page args in
  let sel := selection images s (effective_end_page args (len images)) in
  run_ready args ->
  batch_size args = Some b -> len sel <= b ->
  num_batches (len sel) b = 1
  /\ writes (log (snd (main args (initial w))))
     = [(output_path args,
         combine_latex_pages (fst (transcribe w (enumerate_from s sel))))].
Proof.
  cbv zeta. intros Hready Hb Hle.
  pose proof Hready as (_ & _ & Hrange). cbv zeta in Hrange.
  set (images := rendered_images (pdf_path args) (dpi args)) in *.
  set (s := start_page args) in *.
  set (sel := selection images s (effective_end_page args (len images))) in *.
  pose proof (len_selection _ _ _ Hrange) as Hsel. fold sel in Hsel.
  destruct Hrange as [Hs He].
  assert (Hpos : 0 < b) by lia.
  assert (Hnb : num_batches (len sel) b = 1).
  { unfold num_batches. symmetry.
    apply Z.div_unique with (r := len sel - 1); lia. }
  split; [exact Hnb|].
  destruct (main_run_partition args w Hready) as (evs & E & _ & _ & Hw & _).
  { intros v Hv. rewrite Hb in Hv. injection Hv as <-. lia. }
  cbv zeta in Hw. fold images s sel in Hw. rewrite E. cbn [snd log].
  rewrite Hw, Hb. unfold or_int.
  destruct (Z.eqb_spec b 0); [lia|]. rewrite Hnb. reflexivity.
Qed.

Lemma batch_size_covering_the_range_writes_only_the_final_file_witness :
  num_batches 3 7 = 1
  /\ writes (log (snd (main (platform := three_pages)
                         (test_args 0 None (Some 7))
                         (initial (platform := three_pages) 0%nat))))
     = [("article_translated_en.tex"%string,
         combine_latex_pages ["\section{0}"; "\section{1}"; "\section{2}"])].
Proof.
  apply (batch_size_covering_the_range_writes_only_the_final_file
           three_pages (test_args 0 None (Some 7)) 0%nat 7).
  - repeat split; vm_compute; congruence.
  - reflexivity.
  - vm_compute. congruence.
Defined.

(** *** Batches *)

Section BatchShapes.

Context {platform : Platform}.

Lemma batch_slice_len {A : Type} (l : list A) (bs : Z) (k : nat) :
  0 < bs ->
  len (py_slice l (batch_start bs (Z.of_nat k))
         (batch_end bs (len l) (Z.of_nat k)))
  = Z.max 0 (Z.min bs (len l - Z.of_nat k * bs)).
Proof.
  intros Hbs. rewrite batch_slice_firstn by assumption.
  unfold len. rewrite length_firstn, length_skipn. nia.
Qed.

Lemma batch_fragments_prefix (fragments : list string) (bs : Z) (k : nat) :
  0 < bs ->
  List.concat (map (batch_fragments fragments bs) (range (Z.of_nat k)))
  = firstn (k * Z.to_nat bs) fragments.
Proof.
  intros Hbs. induction k as [|k IH]; [reflexivity|].
  rewrite range_succ, map_app, concat_app, IH. cbn [map List.concat].
  rewrite app_nil_r. unfold batch_fragments.
  rewrite batch_slice_firstn by assumption.
  replace (S k * Z.to_nat bs)%nat with (k * Z.to_nat bs + Z.to_nat bs)%nat
    by lia.
  now rewrite firstn_add.
Qed.

Lemma join_app (sep : string) (l1 l2 : list string) :
  l1 <> [] -> l2 <> [] ->
  join sep (l1 ++ l2) = (join sep l1 ++ sep ++ join sep l2)%string.
Proof.
  intros H1 H2. induction l1 as [|x l1 IH]; [contradiction|].
  destruct l1 as [|y l1].
  - destruct l2 as [|z l2]; [contradiction | reflexivity].
  - change (join sep ((x :: y :: l1) ++ l2))
      with (x ++ sep ++ join sep ((y :: l1) ++ l2))%string.
    rewrite IH by discriminate.
    change (join sep (x :: y :: l1))
      with (x ++ sep ++ join sep (y :: l1))%string.
    now rewrite !str_app_assoc.
Qed.

Lemma join_concat (sep : string) (pieces : list (list string)) :
  Forall (fun piece => piece <> []) pieces ->
  join sep (List.concat pieces) = join sep (map (join sep) pieces).
Proof.
  induction 1 as [|piece pieces Hne Hall IH]; [reflexivity|].
  cbn [List.concat map]. destruct pieces as [|next pieces].
  - cbn [List.concat map]. now rewrite app_nil_r.
  - rewrite join_app; [|assumption|].
    + rewrite IH. reflexivity.
    + inversion Hall as [|? ? Hnext _]; subst. cbn [List.concat].
      destruct next; [contradiction | discriminate].
Qed.

Lemma in_enumerate_from {A : Type} (l : list A) (first k : Z) (x : A) :
  In (k, x) (enumerate_from first l) ->
  first <= k /\ nth_error l (Z.to_nat (k - first)) = Some x.
Proof.
  revert first. induction l as [|y l IH]; intros first H; [contradiction|].
  destruct H as [H|H].
  - injection H as <- <-. rewrite Z.sub_diag. split; [lia | reflexivity].
  - destruct (IH _ H) as [Hk Hn]. split; [lia|].
    replace (Z.to_nat (k - first)) with (S (Z.to_nat (k - (first + 1))))
      by lia.
    exact Hn.
Qed.

End BatchShapes.

(** X5: for a positive batch size every batch the loop runs is non-empty
    and holds at most [batch_size] pages; all batches but the last hold
    exactly [batch_size] pages, and the last holds what is left. *)
Theorem batches_are_full_except_the_last
    (platform : Platform) (sel : list Image) (bs k : Z) :
  0 < bs -> 0 <= k < num_batches (len sel) bs ->
  len (batch_images sel bs k) = Z.min bs (len sel - k * bs)
  /\ 1 <= len (batch_images sel bs k) <= bs
  /\ (k < num_batches (len sel) bs - 1 -> len (batch_images sel bs k) = bs)
  /\ (k = num_batches (len sel) bs - 1 ->
      len (batch_images sel bs k) = len sel - k * bs).
Proof.
  intros Hbs Hk.
  destruct (num_batches_pos (len sel) bs Hbs (len_nonneg sel)) as (H0 & H1 & H2).
  assert (Hn : 0 < len sel).
  { destruct (Z.eqb_spec (len sel) 0) as [E|]; [|pose proof (len_nonneg sel); lia].
    rewrite E in *. unfold num_batches in Hk.
    rewrite Z.div_small in Hk by lia. lia. }
  destruct (Z.eqb_spec (len sel) 0); [lia|].
  assert (HL : len (batch_images sel bs k)
               = Z.max 0 (Z.min bs (len sel - k * bs))).
  { rewrite <- (Z2Nat.id k) by lia. apply batch_slice_len. assumption. }
  rewrite HL. nia.
Qed.

Lemma batches_are_full_except_the_last_witness :
  len (batch_images (platform := five_pages) [0; 1; 2; 3; 4] 2 2)
  = Z.min 2 (len [0; 1; 2; 3; 4] - 2 * 2)
  /\ 1 <= len (batch_images (platform := five_pages) [0; 1; 2; 3; 4] 2 2) <= 2
  /\ (2 < num_batches (len [0; 1; 2; 3; 4]) 2 - 1 ->
      len (batch_images (platform := five_pages) [0; 1; 2; 3; 4] 2 2) = 2)
  /\ (2 = num_batches (len [0; 1; 2; 3; 4]) 2 - 1 ->
      len (batch_images (platform := five_pages) [0; 1; 2; 3; 4] 2 2)
      = len [0; 1; 2; 3; 4] - 2 * 2).
Proof.
  apply (batches_are_full_except_the_last five_pages [0; 1; 2; 3; 4] 2 2).
  - lia.
  - vm_compute. split; congruence.
Defined.

(** X6: for a positive batch size the fragments held by the intermediate
    batch files, put together in batch order, are exactly the fragments of
    the final document; and the body of the final document is the bodies
    of the batch documents joined by the page separator. *)
Theorem batch_files_together_hold_the_final_fragments
    (fragments : list string) (bs : Z) :
  0 < bs ->
  let nb := num_batches (len fragments) bs in
  List.concat (map (batch_fragments fragments bs) (range nb)) = fragments
  /\ join page_separator fragments
     = join page_separator
         (map (fun b => join page_separator (batch_fragments fragments bs b))
              (range nb)).
Proof.
  intros Hbs nb.
  destruct (num_batches_pos (len fragments) bs Hbs (len_nonneg fragments))
    as (H0 & H1 & H2).
  fold nb in H0, H1, H2.
  assert (Hcat : List.concat (map (batch_fragments fragments bs) (range nb))
                 = fragments).
  { rewrite <- (Z2Nat.id nb) by assumption.
    rewrite batch_fragments_prefix by assumption.
    apply firstn_all2. unfold len in *. nia. }
  split; [exact Hcat|].
  rewrite <- Hcat at 1. rewrite join_concat, map_map; [reflexivity|].
  apply Forall_forall. intros piece Hin. apply in_map_iff in Hin.
  destruct Hin as (b & <- & Hb). unfold range in Hb.
  apply in_map_iff in Hb. destruct Hb as (k & <- & Hk). apply in_seq in Hk.
  assert (HL : len (batch_fragments fragments bs (Z.of_nat k))
               = Z.max 0 (Z.min bs (len fragments - Z.of_nat k * bs))).
  { apply batch_slice_len. assumption. }
  intros Hnil. rewrite Hnil in HL. change (@len string []) with 0 in HL.
  assert (Hkz : Z.of_nat k <= nb - 1) by lia.
  destruct (Z.eqb_spec (len fragments) 0) as [E|NE].
  - unfold nb, num_batches in Hkz. rewrite E in Hkz.
    rewrite Z.div_small in Hkz by lia. lia.
  - pose proof (len_nonneg fragments). nia.
Qed.

Lemma batch_files_together_hold_the_final_fragments_witness :
  List.concat (map (batch_fragments ["a"; "b"; "c"; "d"; "e"] 2)
            (range (num_batches (len ["a"; "b"; "c"; "d"; "e"]) 2)))
  = ["a"; "b"; "c"; "d"; "e"]%string
  /\ join page_separator ["a"; "b"; "c"; "d"; "e"]
     = join page_separator
         (map (fun b => join page_separator
                          (batch_fragments ["a"; "b"; "c"; "d"; "e"] 2 b))
              (range (num_batches (len ["a"; "b"; "c"; "d"; "e"]) 2))).
Proof.
  apply (batch_files_together_hold_the_final_fragments
           ["a"; "b"; "c"; "d"; "e"]%string 2).
  lia.
Defined.

Lemma ascending_NoDup (s : Z) (first n : nat) :
  NoDup (map (fun i => s + Z.of_nat i) (seq first n)).
Proof.
  revert first. induction n as [|n IH]; intros first; cbn [seq map].
  - constructor.
  - constructor; [|apply IH].
    intros Hin. apply in_map_iff in Hin. destruct Hin as (i & Hi & Hseq).
    apply in_seq in Hseq. lia.
Qed.

Lemma pages_between_NoDup (s e : Z) : NoDup (pages_between s e).
Proof. apply ascending_NoDup. Qed.

(** X7: with the batch size left out, 0 or positive, the page numbers the
    batches visit, batch after batch, are the selected range in ascending
    order, and no page number is visited twice. *)
Theorem batches_visit_each_selected_page_once
    (platform : Platform) (s : Z) (sel : list Image) (b : option Z) :
  (forall v, b = Some v -> 0 <= v) -> 0 < len sel ->
  let bs := or_int b (len sel) in
  let visited :=
    flat_map (batch_page_nums s sel bs) (range (num_batches (len sel) bs)) in
  visited = pages_between s (s + len sel - 1)
  /\ NoDup visited
  /\ len visited = len sel.
Proof.
  intros Hb Hn bs visited.
  assert (Hbs : 0 < bs) by (apply or_int_nonneg; assumption).
  assert (E : visited = pages_between s (s + len sel - 1)).
  { apply batch_page_nums_partition. assumption. }
  rewrite E. split; [reflexivity|]. split; [apply pages_between_NoDup|].
  unfold pages_between, len. rewrite length_map, length_seq.
  unfold len in Hn. lia.
Qed.

Lemma batches_visit_each_selected_page_once_witness :
  flat_map (batch_page_nums (platform := five_pages) 3 [3; 4] (or_int (Some 0) 2))
    (range (num_batches 2 (or_int (Some 0) 2)))
  = pages_between 3 (3 + 2 - 1)
  /\ NoDup (flat_map
              (batch_page_nums (platform := five_pages) 3 [3; 4]
                 (or_int (Some 0) 2))
              (range (num_batches 2 (or_int (Some 0) 2))))
  /\ len (flat_map
            (batch_page_nums (platform := five_pages) 3 [3; 4]
               (or_int (Some 0) 2))
            (range (num_batches 2 (or_int (Some 0) 2))))
     = 2.
Proof.
  apply (batches_visit_each_selected_page_once five_pages 3 [3; 4] (Some 0)).
  - intros v Hv. injection Hv as <-. lia.
  - reflexivity.
Defined.

(** X8: the final document and the state the remote service is left in
    do not depend on the batch size, as long as it is left out, 0 or
    positive: two runs on the same arguments that differ only in
    [--batch-size] send the same requests in the same order and write the
    same final document to the same path. *)
Theorem final_document_does_not_depend_on_batch_size
    (platform : Platform) (args : Args) (w : World) (b1 b2 : option Z) :
  run_ready args ->
  (forall v, b1 = Some v -> 0 <= v) ->
  (forall v, b2 = Some v -> 0 <= v) ->
  let run1 := main (with_batch_size args b1) (initial w) in
  let run2 := main (with_batch_size args b2) (initial w) in
  fst run1 = fst run2
  /\ world (snd run1) = world (snd run2)
  /\ requests (log (snd run1)) = requests (log (snd run2))
  /\ last (writes (log (snd run1))) (""%string, ""%string)
     = last (writes (log (snd run2))) (""%string, ""%string).
Proof.
  intros Hready H1 H2 run1 run2.
  destruct (main_run_partition (with_batch_size args b1) w Hready H1)
    as (ev1 & E1 & Hr1 & _ & Hw1 & _).
  destruct (main_run_partition (with_batch_size args b2) w Hready H2)
    as (ev2 & E2 & Hr2 & _ & Hw2 & _).
  cbv zeta in *. unfold run1, run2. rewrite E1, E2.
  cbn [fst snd log world]. rewrite Hr1, Hr2, Hw1, Hw2, !last_last.
  repeat split.
Qed.

Lemma final_document_does_not_depend_on_batch_size_witness :
  let run1 := main (platform := five_pages) (test_args 1 (Some 4) (Some 3))
                (initial (platform := five_pages) 0%nat) in
  let run2 := main (platform := five_pages) (test_args 1 (Some 4) None)
                (initial (platform := five_pages) 0%nat) in
  fst run1 = fst run2
  /\ world (snd run1) = world (snd run2)
  /\ requests (log (snd run1)) = requests (log (snd run2))
  /\ last (writes (log (snd run1))) (""%string, ""%string)
     = last (writes (log (snd run2))) (""%string, ""%string).
Proof.
  apply (final_document_does_not_depend_on_batch_size
           five_pages (test_args 1 (Some 4) None) 0%nat (Some 3) None).
  - repeat split; vm_compute; congruence.
  - intros v Hv. injection Hv as <-. lia.
  - discriminate.
Defined.

(** X9: every page a batch visits is visited under its own 0-based index
    in the document: the image handed to the transcription function with
    page number [k] is the [k]-th rendered image, and [k] lies in the
    requested range, whatever the start page and the positive batch
    size. *)
Theorem pages_are_transcribed_under_their_document_index
    (platform : Platform) (images : list Image) (s e bs b k : Z)
    (image : Image) :
  valid_range (len images) s e -> 0 < bs -> 0 <= b ->
  In (k, image) (batch_pages s (selection images s e) bs b) ->
  s <= k <= e /\ nth_error images (Z.to_nat k) = Some image.
Proof.
  intros Hrange Hbs Hb Hin.
  pose proof (len_selection images s e Hrange) as Hsel.
  rewrite batch_pages_enumerate in Hin.
  rewrite <- (Z2Nat.id b) in Hin by assumption.
  rewrite batch_images_firstn in Hin by assumption.
  apply in_enumerate_from in Hin. destruct Hin as [Hk Hn].
  rewrite nth_error_firstn in Hn.
  destruct (Nat.ltb_spec (Z.to_nat (k - (s + batch_start bs (Z.of_nat (Z.to_nat b)))))
              (Z.to_nat bs)); [|discriminate].
  rewrite nth_error_skipn in Hn.
  assert (Hlt : (Z.to_nat b * Z.to_nat bs
                 + Z.to_nat (k - (s + batch_start bs (Z.of_nat (Z.to_nat b))))
                 < List.length (selection images s e))%nat).
  { apply nth_error_Some. rewrite Hn. discriminate. }
  unfold batch_start in *. rewrite Z2Nat.id in * by assumption.
  unfold len in Hsel.
  assert (Hke : s <= k <= e) by nia.
  split; [exact Hke|].
  rewrite <- (nth_error_selection images s e k Hrange Hke), <- Hn.
  f_equal. nia.
Qed.

Lemma pages_are_transcribed_under_their_document_index_witness :
  1 <= 3 <= 4
  /\ nth_error (rendered_images (platform := five_pages) "papers/article.pdf" 300)
       (Z.to_nat 3)
     = Some 3.
Proof.
  apply (pages_are_transcribed_under_their_document_index five_pages
           (rendered_images (platform := five_pages) "papers/article.pdf" 300)
           1 4 2 1 3 3).
  - vm_compute. repeat split; congruence.
  - lia.
  - lia.
  - vm_compute. auto.
Defined.

(** *** PageRenderer *)

Section Rendering.

Context {platform : Platform}.

Lemma render_pages_all_ok (doc : Doc) (d : Z) (nums : list Z)
    (acc : list Image) :
  (forall k, In k nums -> exists img, rasterize doc k d = Ok img) ->
  exists images,
    render_pages doc d nums acc = Ok (acc ++ images)
    /\ Forall2 (fun k img => rasterize doc k d = Ok img) nums images.
Proof.
  revert acc. induction nums as [|k nums IH]; intros acc Hall.
  - exists []. rewrite app_nil_r. split; [reflexivity | constructor].
  - destruct (Hall k (or_introl eq_refl)) as [img Hk].
    destruct (IH (acc ++ [img])) as (images & E & HF).
    { intros j Hj. apply Hall. now right. }
    exists (img :: images). cbn [render_pages]. rewrite Hk, E, <- app_assoc.
    split; [reflexivity | now constructor].
Qed.

Lemma render_pages_first_failure (doc : Doc) (d : Z) (oks rest : list Z)
    (k : Z) (e : string) (acc : list Image) :
  (forall j, In j oks -> exists img, rasterize doc j d = Ok img) ->
  rasterize doc k d = Raise e ->
  render_pages doc d (oks ++ k :: rest) acc = Raise e.
Proof.
  revert acc. induction oks as [|j oks IH]; intros acc Hall Hk.
  - cbn [app render_pages]. now rewrite Hk.
  - destruct (Hall j (or_introl eq_refl)) as [img Hj].
    cbn [app render_pages]. rewrite Hj. apply IH; [|assumption].
    intros i Hi. apply Hall. now right.
Qed.

Lemma range_split (n k : nat) :
  (k < n)%nat ->
  range (Z.of_nat n)
  = range (Z.of_nat k) ++ Z.of_nat k :: map Z.of_nat (seq (S k) (n - S k)).
Proof.
  intros Hk. unfold range. rewrite !Nat2Z.id.
  replace n with (k + S (n - S k))%nat at 1 by lia.
  rewrite seq_app, map_app. reflexivity.
Qed.

Lemma in_range_lt (n : nat) (j : Z) :
  In j (range (Z.of_nat n)) -> exists i, j = Z.of_nat i /\ (i < n)%nat.
Proof.
  unfold range. rewrite Nat2Z.id. intros H. apply in_map_iff in H.
  destruct H as (i & <- & Hi). apply in_seq in Hi. exists i. split; [reflexivity | lia].
Qed.

Lemma Forall2_nth_error_left {A B : Type} (R : A -> B -> Prop)
    (l1 : list A) (l2 : list B) (i : nat) (a : A) :
  Forall2 R l1 l2 -> nth_error l1 i = Some a ->
  exists b, nth_error l2 i = Some b /\ R a b.
Proof.
  intros HF. revert i. induction HF as [|x y l1 l2 Hxy HF IH]; intros i Hi.
  - destruct i; discriminate.
  - destruct i as [|i]; cbn [nth_error] in *.
    + injection Hi as ->. eauto.
    + eauto.
Qed.

End Rendering.

(** X10: when the document opens and every page rasterizes, the renderer
    prints the one line "Extracting n pages as images..." and returns one
    image per page in page order: the [k]-th image is the rasterization of
    page [k] at the given dpi. *)
Theorem renderer_returns_every_page_in_order
    (platform : Platform) (p : string) (d : Z) (doc : Doc) (st : state) :
  fitz_open p = Ok doc ->
  (forall k, (k < page_count doc)%nat ->
             exists img, rasterize doc (Z.of_nat k) d = Ok img) ->
  exists images,
    extract_pages_as_images p d st
    = (Done images,
       {| world := world st;
          log := log st
                 ++ [Print ("Extracting " ++ str_int (Z.of_nat (page_count doc))
                            ++ " pages as images...")] |})
    /\ List.length images = page_count doc
    /\ forall k, (k < page_count doc)%nat ->
         exists img, nth_error images k = Some img
                     /\ rasterize doc (Z.of_nat k) d = Ok img.
Proof.
  intros Hopen Hall.
  destruct (render_pages_all_ok doc d (range (Z.of_nat (page_count doc))) [])
    as (images & E & HF).
  { intros j Hj. apply in_range_lt in Hj. destruct Hj as (i & -> & Hi). auto. }
  exists images. unfold extract_pages_as_images.
  rewrite Hopen. unfold bind, print, emit. cbn [fst snd world log].
  rewrite E. cbn [app]. split; [reflexivity|].
  pose proof (Forall2_length HF) as HL. rewrite length_range, Nat2Z.id in HL.
  split; [now symmetry|].
  intros k Hk.
  apply (Forall2_nth_error_left _ _ _ k (Z.of_nat k) HF).
  unfold range. rewrite Nat2Z.id, nth_error_map, nth_error_seq.
  destruct (Nat.ltb_spec k (page_count doc)); [reflexivity | lia].
Qed.

Lemma renderer_returns_every_page_in_order_witness :
  exists images,
    extract_pages_as_images (platform := five_pages) "papers/article.pdf" 150
      (initial (platform := five_pages) 0%nat)
    = (Done images,
       @Build_state five_pages 0%nat
         [Print "Extracting 5 pages as images..."])
    /\ List.length images = 5%nat
    /\ forall k, (k < 5)%nat ->
         exists img, nth_error images k = Some img
                     /\ rasterize (Platform := five_pages) 5%nat (Z.of_nat k) 150
                        = Ok img.
Proof.
  apply (renderer_returns_every_page_in_order five_pages
           "papers/article.pdf" 150 5%nat
           (initial (platform := five_pages) 0%nat)).
  - reflexivity.
  - intros k Hk. exists (Z.of_nat k). reflexivity.
Defined.

(** X11: the renderer reports the first failure and nothing after it.
    When the document cannot be opened it prints "Error extracting images
    from PDF: " with the exception message and returns no image.  When
    page [k] is the first that cannot be rasterized it prints the
    "Extracting" line, then the error line with the message of page [k],
    and returns no image, whatever the later pages would do. *)
Theorem renderer_reports_the_first_failure
    (platform : Platform) (p : string) (d : Z) (st : state) (e : string) :
  (fitz_open p = Raise e ->
   extract_pages_as_images p d st
   = (Done [],
      {| world := world st;
         log := log st ++ [Print ("Error extracting images from PDF: " ++ e)] |}))
  /\ (forall doc k,
         fitz_open p = Ok doc ->
         (k < page_count doc)%nat ->
         (forall j, (j < k)%nat ->
                    exists img, rasterize doc (Z.of_nat j) d = Ok img) ->
         rasterize doc (Z.of_nat k) d = Raise e ->
         extract_pages_as_images p d st
         = (Done [],
            {| world := world st;
               log := log st
                      ++ [Print ("Extracting "
                                 ++ str_int (Z.of_nat (page_count doc))
                                 ++ " pages as images...");
                          Print ("Error extracting images from PDF: " ++ e)] |})).
Proof.
  split.
  - intros Hopen. unfold extract_pages_as_images. rewrite Hopen. reflexivity.
  - intros doc k Hopen Hk Hoks Hfail. unfold extract_pages_as_images.
    rewrite Hopen, (range_split _ _ Hk).
    rewrite render_pages_first_failure with (e := e); [| |assumption].
    + unfold bind, print, emit, ret. cbn [fst snd world log].
      now rewrite <- app_assoc.
    + intros j Hj. apply in_range_lt in Hj. destruct Hj as (i & -> & Hi). auto.
Qed.

Lemma renderer_reports_the_first_failure_witness :
  extract_pages_as_images (platform := torn_five_platform)
    "papers/article.pdf" 300 (initial (platform := torn_five_platform) 0%nat)
  = (Done [],
     @Build_state torn_five_platform 0%nat
       [Print "Extracting 5 pages as images...";
        Print "Error extracting images from PDF: cannot render page"]).
Proof.
  apply (proj2 (renderer_reports_the_first_failure torn_five_platform
                  "papers/article.pdf" 300
                  (initial (platform := torn_five_platform) 0%nat)
                  "cannot render page") 5%nat 3%nat).
  - reflexivity.
  - simpl. lia.
  - intros j Hj. exists (Z.of_nat j).
    do 3 (destruct j as [|j]; [reflexivity|]). lia.
  - reflexivity.
Defined.

(** *** TranscriptionClient *)

(** X12: when the image of a page cannot be encoded, the transcription
    function does not contact the model (the service is left as it was):
    it prints "Error in Claude processing: " with the message and returns
    the error comment of the page. *)
Theorem unencodable_image_is_not_sent
    (platform : Platform) (image : Image) (page_num : Z) (e : string)
    (st : state) :
  encode_png image = Raise e ->
  translate_and_convert_to_latex_with_claude_vision image page_num st
  = (Done (error_fragment page_num e),
     {| world := world st;
        log := log st ++ [Transcribe page_num;
                          Print ("Error in Claude processing: " ++ e)] |}).
Proof.
  intros Henc.
  unfold translate_and_convert_to_latex_with_claude_vision, bind,
    try_vision, vision_request, get_image_base64_and_mime, print, emit, ret.
  cbn [fst snd world log]. rewrite Henc. cbn [fst snd world log].
  rewrite <- ?app_assoc. reflexivity.
Qed.

Lemma unencodable_image_is_not_sent_witness :
  translate_and_convert_to_latex_with_claude_vision (platform := mute_platform)
    2 2 (initial (platform := mute_platform) 0%nat)
  = (Done (error_fragment 2 "cannot write mode"),
     @Build_state mute_platform 0%nat
       [Transcribe 2; Print "Error in Claude processing: cannot write mode"]).
Proof.
  apply (unencodable_image_is_not_sent mute_platform 2 2 "cannot write mode"
           (initial (platform := mute_platform) 0%nat)).
  reflexivity.
Defined.

(** X13: the answer of the model is used as follows.  The text of the
    first content block is returned as it is, nothing is printed and
    further blocks are dropped; an answer with no content block does not
    stop the run: it becomes the error comment of the page with the
    message "list index out of range".  In both cases the request sent is
    the one built for the encoded image, the media type image/png and the
    prompt of the page. *)
Theorem first_content_block_is_the_fragment
    (platform : Platform) (image : Image) (page_num : Z) (img_str : string)
    (content : list string) (w' : World) (st : state) :
  encode_png image = Ok img_str ->
  messages_create (request_for img_str "image/png" page_num) (world st)
  = (Ok content, w') ->
  translate_and_convert_to_latex_with_claude_vision image page_num st
  = match content with
    | first_text :: _ =>
        (Done first_text,
         {| world := w'; log := log st ++ [Transcribe page_num] |})
    | [] =>
        (Done (error_fragment page_num "list index out of range"),
         {| world := w';
            log := log st
                   ++ [Transcribe page_num;
                       Print "Error in Claude processing: list index out of range"] |})
    end.
Proof.
  intros Henc Hcall.
  unfold translate_and_convert_to_latex_with_claude_vision, bind,
    try_vision, vision_request, get_image_base64_and_mime, print, emit, ret.
  cbn [fst snd world log]. rewrite Henc, Hcall.
  destruct content as [|first_text rest]; cbn [fst snd world log].
  - rewrite <- ?app_assoc. reflexivity.
  - reflexivity.
Qed.

Lemma first_content_block_is_the_fragment_witness :
  translate_and_convert_to_latex_with_claude_vision (platform := five_pages)
    4 4 (initial (platform := five_pages) 0%nat)
  = (Done "4"%string, @Build_state five_pages 1%nat [Transcribe 4]).
Proof.
  apply (first_content_block_is_the_fragment five_pages 4 4 "4"
           ["4"; "second block"]%string 1%nat
           (initial (platform := five_pages) 0%nat)); reflexivity.
Defined.

(** *** Progress lines *)

Section Progress.

Context {platform : Platform}.

#[local] Arguments combine_latex_pages : simpl never.
#[local] Arguments batch_output : simpl never.
#[local] Arguments batch_images : simpl never.
#[local] Arguments progress_line : simpl never.

Lemma in_printed (line : string) (evs : list event) :
  In (Print line) evs <-> In line (printed evs).
Proof.
  unfold printed. rewrite in_flat_map. split.
  - intros H. exists (Print line). split; [assumption | now left].
  - intros (e & He & Hl). destruct e; try contradiction.
    destruct Hl as [->|[]]. assumption.
Qed.

Lemma batch_loop_progress (out : string) (s bs nb : Z) (sel : list Image)
    (idxs : list Z) (acc : list string) (st : state) :
  exists evs,
    log (snd (batch_loop out s bs nb sel idxs acc st)) = log st ++ evs
    /\ forall b, In b idxs ->
         In (Print (progress_line s bs nb (len sel) b)) evs
         /\ (1 < nb ->
             In (Print ("Batch " ++ str_int (b + 1) ++ " saved to: "
                        ++ batch_output out b)) evs).
Proof.
  revert acc st. induction idxs as [|b idxs IH]; intros acc st.
  - exists []. cbn. rewrite app_nil_r. split; [reflexivity | contradiction].
  - cbn [batch_loop]. unfold bind at 1. unfold print at 1, emit.
    cbn [fst snd world log]. unfold bind at 1.
    match goal with
    | |- context [page_loop s ?bst ?items [] ?t] =>
        destruct (page_loop_run s bst items [] t) as (ev1 & E1 & _)
    end.
    cbv zeta in E1. rewrite E1. clear E1. cbn [fst snd world log app].
    fold (progress_line s bs nb (len sel) b).
    destruct (Z.ltb_spec 1 nb) as [Hnb|Hnb].
    + unfold bind at 1. unfold bind at 1.
      unfold write_file at 1, print at 1, emit. cbn [fst snd world log].
      match goal with
      | |- context [batch_loop out s bs nb sel idxs ?a ?t] =>
          destruct (IH a t) as (ev2 & -> & Hin)
      end.
      cbn [fst snd world log]. eexists. split.
      * rewrite <- !app_assoc. reflexivity.
      * intros b' [<-|Hb'].
        -- rewrite !in_app_iff. cbn [In]. auto 10.
        -- destruct (Hin b' Hb') as [H1 H2].
           rewrite !in_app_iff. cbn [In]. auto 10.
    + unfold bind at 1. unfold ret at 1.
      match goal with
      | |- context [batch_loop out s bs nb sel idxs ?a ?t] =>
          destruct (IH a t) as (ev2 & -> & Hin)
      end.
      cbn [fst snd world log]. eexists. split.
      * rewrite <- !app_assoc. reflexivity.
      * intros b' [<-|Hb'].
        -- rewrite !in_app_iff. cbn [In]. split; [auto 10 | lia].
        -- destruct (Hin b' Hb') as [H1 _].
           rewrite !in_app_iff. cbn [In]. split; [auto 10 | lia].
Qed.

End Progress.

Section ProgressOfRuns.

Context {platform : Platform}.

#[local] Arguments combine_latex_pages : simpl never.
#[local] Arguments batch_output : simpl never.
#[local] Arguments batch_images : simpl never.
#[local] Arguments progress_line : simpl never.
#[local] Arguments py_slice : simpl never.
#[local] Arguments join : simpl never.

(** The log of a run that passes the checks holds the log of the outer
    loop. *)
Lemma main_log_holds_batch_log (args : Args) (w : World) :
  run_ready args ->
  let images := rendered_images (pdf_path args) (dpi args) in
  let s := start_page args in
  let sel := selection images s (effective_end_page args (len images)) in
  let bs := or_int (batch_size args) (len sel) in
  let nb := num_batches (len sel) bs in
  exists st1 evs tail,
    log (snd (main args (initial w))) = log st1 ++ evs ++ tail
    /\ log (snd (batch_loop (output_path args) s bs nb sel (range nb) [] st1))
       = log st1 ++ evs.
Proof.
  intros (Hkey & Hpath & Hrange). cbv zeta in *.
  unfold main. unfold bind at 1.
  destruct (check_environment_run (initial w)) as (ev0 & -> & _).
  rewrite Hkey, Hpath. cbn [negb]. unfold bind at 1.
  match goal with
  | |- context [extract_pages_as_images ?p ?d ?t] =>
      destruct (extract_run p d t) as (ev1 & -> & _)
  end.
  destruct (rendered_images (pdf_path args) (dpi args)) as [|im l] eqn:Eimg.
  { destruct Hrange as [Hs He]. change (@len Image []) with 0 in Hs, He. lia. }
  cbv iota. rewrite <- Eimg in *. clear Eimg im l.
  set (images := rendered_images (pdf_path args) (dpi args)) in *.
  set (s := start_page args) in *.
  set (e := effective_end_page args (len images)) in *.
  pose proof (len_selection images s e Hrange) as Hsel.
  destruct Hrange as [Hs He].
  destruct (Z.ltb_spec s 0); [lia|].
  destruct (Z.leb_spec (len images) s); [lia|]. cbn [orb].
  destruct (Z.ltb_spec e s); [lia|].
  destruct (Z.leb_spec (len images) e); [lia|]. cbn [orb].
  fold (selection images s e).
  set (sel := selection images s e) in *.
  set (bs := or_int (batch_size args) (len sel)).
  assert (Hbs : bs <> 0).
  { unfold bs, or_int. destruct (batch_size args) as [v|]; [|lia].
    destruct (Z.eqb_spec v 0); lia. }
  destruct (Z.eqb_spec bs 0); [contradiction|].
  fold (num_batches (len sel) bs).
  set (nb := num_batches (len sel) bs).
  unfold bind at 1.
  match goal with
  | |- context [batch_loop ?o s bs nb sel ?i ?a ?t] =>
      destruct (batch_loop_run o s bs nb sel i a t) as (ev2 & E & _);
      exists t, ev2
  end.
  rewrite E. unfold bind, write_file, print, emit. cbn [fst snd world log].
  eexists. split; [|reflexivity]. rewrite <- !app_assoc. reflexivity.
Qed.

(** A run that passes the checks prints the progress line of every batch
    it runs, and with several batches the line that tells where the batch
    was saved. *)
Lemma main_progress (args : Args) (w : World) :
  run_ready args ->
  let images := rendered_images (pdf_path args) (dpi args) in
  let s := start_page args in
  let sel := selection images s (effective_end_page args (len images)) in
  let bs := or_int (batch_size args) (len sel) in
  let nb := num_batches (len sel) bs in
  forall b, In b (range nb) ->
    In (Print (progress_line s bs nb (len sel) b))
       (log (snd (main args (initial w))))
    /\ (1 < nb ->
        In (Print ("Batch " ++ str_int (b + 1) ++ " saved to: "
                   ++ batch_output (output_path args) b))
           (log (snd (main args (initial w))))).
Proof.
  intros Hready. cbv zeta.
  destruct (main_log_holds_batch_log args w Hready)
    as (st1 & evs & tail & -> & Hloop).
  cbv zeta in Hloop.
  match type of Hloop with
  | log (snd (batch_loop ?o ?s ?bs ?nb ?sel ?i ?a ?t)) = _ =>
      destruct (batch_loop_progress o s bs nb sel i a t) as (evs' & Hlog & Hin)
  end.
  rewrite Hloop in Hlog. apply app_inv_head in Hlog. subst evs'.
  intros b Hb. destruct (Hin b Hb) as [Hline Hsaved].
  rewrite !in_app_iff. split; [auto|]. intros Hnb. auto.
Qed.

Lemma batch_page_nums_interval (s : Z) (sel : list Image) (bs b : Z) :
  0 < bs -> 0 <= b < num_batches (len sel) bs ->
  batch_page_nums s sel bs b
  = pages_between (s + batch_start bs b)
      (s + batch_end bs (len sel) b - 1).
Proof.
  intros Hbs Hb. unfold batch_page_nums.
  rewrite batch_pages_enumerate, pages_between_enumerate. f_equal.
  destruct (num_batches_pos (len sel) bs Hbs (len_nonneg sel)) as (H0 & H1 & H2).
  assert (HL : len (batch_images sel bs b)
               = Z.max 0 (Z.min bs (len sel - b * bs))).
  { rewrite <- (Z2Nat.id b) by lia. apply batch_slice_len. assumption. }
  rewrite HL. unfold batch_start, batch_end.
  destruct (Z.eqb_spec (len sel) 0) as [E|NE].
  - rewrite E in Hb. unfold num_batches in Hb.
    rewrite Z.div_small in Hb by lia. lia.
  - nia.
Qed.

End ProgressOfRuns.

(** X14: before each batch a run prints "Processing batch i/n (pages
    a-b)..." where i is the 1-based batch index, n the number of batches,
    and a-b the 1-based numbers of the first and last page the batch
    visits: the batch visits exactly the 0-based pages a-1 .. b-1. *)
Theorem progress_line_names_the_pages_of_the_batch
    (platform : Platform) (args : Args) (w : World) (b : Z) :
  let images := rendered_images (pdf_path args) (dpi args) in
  let s := start_page args in
  let sel := selection images s (effective_end_page args (len images)) in
  let bs := or_int (batch_size args) (len sel) in
  let nb := num_batches (len sel) bs in
  let first := s + batch_start bs b in
  let last := s + batch_end bs (len sel) b - 1 in
  run_ready args ->
  (forall v, batch_size args = Some v -> 0 <= v) ->
  0 <= b < nb ->
  In ("Processing batch " ++ str_int (b + 1) ++ "/" ++ str_int nb
      ++ " (pages " ++ str_int (first + 1) ++ "-" ++ str_int (last + 1)
      ++ ")...")%string
     (printed (log (snd (main args (initial w)))))
  /\ batch_page_nums s sel bs b = pages_between first last
  /\ first <= last.
Proof.
  cbv zeta. intros Hready Hpos Hb.
  pose proof Hready as (_ & _ & Hrange). cbv zeta in Hrange.
  set (images := rendered_images (pdf_path args) (dpi args)) in *.
  set (s := start_page args) in *.
  set (sel := selection images s (effective_end_page args (len images))) in *.
  pose proof (len_selection _ _ _ Hrange) as Hsel. fold sel in Hsel.
  set (bs := or_int (batch_size args) (len sel)) in *.
  assert (Hbs : 0 < bs).
  { apply or_int_nonneg; [destruct Hrange; lia | assumption]. }
  assert (Hin : In b (range (num_batches (len sel) bs))).
  { unfold range. apply in_map_iff. exists (Z.to_nat b).
    split; [lia | apply in_seq; lia]. }
  destruct (main_progress args w Hready b Hin) as [Hline _].
  apply in_printed in Hline.
  split; [|split].
  - replace (s + batch_end bs (len sel) b - 1 + 1)
      with (s + batch_end bs (len sel) b) by lia.
    exact Hline.
  - apply batch_page_nums_interval; assumption.
  - destruct (num_batches_pos (len sel) bs Hbs (len_nonneg sel))
      as (H0 & H1 & H2).
    unfold batch_start, batch_end.
    destruct (Z.eqb_spec (len sel) 0); [destruct Hrange; lia | nia].
Qed.

Lemma progress_line_names_the_pages_of_the_batch_witness :
  In "Processing batch 2/2 (pages 4-5)..."%string
    (printed (log (snd (main (platform := five_pages)
                          (test_args 1 (Some 4) (Some 2))
                          (initial (platform := five_pages) 0%nat)))))
  /\ batch_page_nums (platform := five_pages) 1 [1; 2; 3; 4] 2 1
     = pages_between 3 4
  /\ 3 <= 4.
Proof.
  apply (progress_line_names_the_pages_of_the_batch five_pages
           (test_args 1 (Some 4) (Some 2)) 0%nat 1).
  - repeat split; vm_compute; congruence.
  - intros v Hv. injection Hv as <-. lia.
  - vm_compute. split; congruence.
Defined.

(** *** The test script *)

(** X15: [test_claude_version.py] does not check the credential.  With
    ANTHROPIC_API_KEY unset or empty it prints its two lines, still
    downloads the picture, and then stops on an exception nobody catches
    (the [AttributeError] of calling the missing client when the download
    worked, the download's exception otherwise): the model is never
    contacted and the exit status is 1. *)
Theorem script_without_credential_stops_on_an_exception
    (platform : Platform) (network : Network platform) (w : World) :
  ANTHROPIC_API_KEY = None \/ ANTHROPIC_API_KEY = Some ""%string ->
  exists exn,
    test_claude_version (initial w)
    = (Uncaught exn,
       {| world := w;
          log := [Print ("ANTHROPIC_API_KEY: " ++ str_option ANTHROPIC_API_KEY);
                  Print ("ANTHROPIC_MODEL: " ++ script_ANTHROPIC_MODEL)] |})
    /\ exit_code (fst (test_claude_version (initial w))) = 1
    /\ (forall content,
          httpx_get_content image_url = Ok content ->
          exn = "AttributeError: 'NoneType' object has no attribute 'messages'"%string)
    /\ (forall e, httpx_get_content image_url = Raise e -> exn = e).
Proof.
  intros Hkey. unfold test_claude_version, bind, print, emit, raise_uncaught.
  cbn [fst snd world log initial app].
  assert (Hfalse : truthy_str ANTHROPIC_API_KEY = false)
    by (destruct Hkey as [-> | ->]; reflexivity).
  rewrite Hfalse. cbn [negb].
  destruct (httpx_get_content image_url) as [content|e].
  - eexists. split; [reflexivity|]. cbn [fst exit_code].
    split; [reflexivity|]. split; [reflexivity | discriminate].
  - eexists. split; [reflexivity|]. cbn [fst exit_code].
    split; [reflexivity|]. split; [discriminate|].
    intros e' He. now injection He.
Qed.

Lemma script_without_credential_stops_on_an_exception_witness :
  exists exn,
    test_claude_version (platform := script_platform None)
      (network := script_network None (Ok "jpeg bytes"))
      (initial (platform := script_platform None) 0%nat)
    = (Uncaught exn,
       @Build_state (script_platform None) 0%nat
         [Print "ANTHROPIC_API_KEY: None";
          Print "ANTHROPIC_MODEL: claude-3-sonnet-latest"])
    /\ exit_code (fst (test_claude_version (platform := script_platform None)
                         (network := script_network None (Ok "jpeg bytes"))
                         (initial (platform := script_platform None) 0%nat)))
       = 1
    /\ (forall content,
          httpx_get_content (Network := script_network None (Ok "jpeg bytes"))
            image_url = Ok content ->
          exn = "AttributeError: 'NoneType' object has no attribute 'messages'"%string)
    /\ (forall e,
          httpx_get_content (Network := script_network None (Ok "jpeg bytes"))
            image_url = Raise e -> exn = e).
Proof.
  apply (script_without_credential_stops_on_an_exception
           (script_platform None) (script_network None (Ok "jpeg bytes"))
           0%nat).
  left. reflexivity.
Defined.

(** X16: on every path the script first prints the credential in clear
    and then the model name taken from ANTHROPIC_MODEL.  It ends normally
    exactly when the credential is set, the download works and the model
    answers the request built from the downloaded picture; it has then
    printed a third line, the response, and that request names the fixed
    model claude-3-7-sonnet-20250219, not the one printed. *)
Theorem script_prints_the_credential_and_ends_normally_only_on_an_answer
    (platform : Platform) (network : Network platform) (w : World) :
  let run := test_claude_version (initial w) in
  (exists rest,
      log (snd run)
      = Print ("ANTHROPIC_API_KEY: " ++ str_option ANTHROPIC_API_KEY)
        :: Print ("ANTHROPIC_MODEL: " ++ script_ANTHROPIC_MODEL) :: rest)
  /\ (fst run = Done tt <->
      truthy_str ANTHROPIC_API_KEY = true
      /\ exists content message w',
           httpx_get_content image_url = Ok content
           /\ create_plain (script_request (standard_b64encode content)) w
              = (Ok message, w')
           /\ plain_model (script_request (standard_b64encode content))
              = "claude-3-7-sonnet-20250219"%string
           /\ snd run
              = {| world := w';
                   log := [Print ("ANTHROPIC_API_KEY: "
                                  ++ str_option ANTHROPIC_API_KEY);
                           Print ("ANTHROPIC_MODEL: " ++ script_ANTHROPIC_MODEL);
                           Print (str_message message)] |}).
Proof.
  intros run. unfold run, test_claude_version, bind, print, emit,
    raise_uncaught, initial.
  cbn [fst snd world log app].
  destruct (httpx_get_content image_url) as [content|e].
  - destruct (truthy_str ANTHROPIC_API_KEY); cbn [negb fst snd world log app].
    + destruct (create_plain (script_request (standard_b64encode content)) w)
        as [[message|e] w'] eqn:Ecall;
        cbn [fst snd world log app].
      * split; [eexists; reflexivity|]. split; [|reflexivity].
        intros _. split; [reflexivity|].
        exists content, message, w'. rewrite Ecall. repeat split.
      * split; [eexists; reflexivity|]. split; [discriminate|].
        intros (_ & c & m & w2 & Hc & Hm & _). injection Hc as <-.
        rewrite Ecall in Hm. discriminate.
    + split; [eexists; reflexivity|]. split; [discriminate|].
      intros (C & _). discriminate.
  - split; [eexists; reflexivity|]. split; [discriminate|].
    intros (_ & c & m & w2 & Hc & _). discriminate.
Qed.

(** *** Pauses and checkpoints *)

Section Checkpoints.

Context {platform : Platform}.

#[local] Arguments combine_latex_pages : simpl never.
#[local] Arguments batch_output : simpl never.
#[local] Arguments batch_images : simpl never.
#[local] Arguments py_slice : simpl never.
#[local] Arguments join : simpl never.

Lemma pace_counts (evs : list event) (owed owed' : bool) :
  pace evs owed = Some owed' ->
  len (requests evs) + (if owed then 1 else 0)
  <= elapsed evs + (if owed' then 1 else 0).
Proof.
  revert owed. induction evs as [|e evs IH]; intros owed H.
  - injection H as <-. change (len (requests [])) with 0. simpl. lia.
  - destruct e; cbn [pace] in H.
    + specialize (IH _ H). exact IH.
    + destruct owed; [discriminate|]. specialize (IH _ H).
      change (requests (Transcribe page_num :: evs))
        with (page_num :: requests evs).
      change (elapsed (Transcribe page_num :: evs)) with (elapsed evs).
      unfold len in *. cbn [List.length]. lia.
    + destruct (Z.ltb_spec seconds 0); [discriminate|].
      specialize (IH _ H).
      change (requests (Sleep seconds :: evs)) with (requests evs).
      change (elapsed (Sleep seconds :: evs)) with (seconds + elapsed evs).
      destruct (Z.leb_spec 1 seconds); destruct owed; lia.
    + specialize (IH _ H). exact IH.
Qed.

Lemma timeline_app (l1 l2 : list event) :
  timeline (l1 ++ l2) = timeline l1 ++ timeline l2.
Proof. apply flat_map_app. Qed.

Lemma timeline_requests (evs : list event) :
  writes evs = [] -> timeline evs = map inl (requests evs).
Proof.
  induction evs as [|e evs IH]; intros H; [reflexivity|].
  destruct e; try (apply IH; exact H).
  - change (timeline (Transcribe page_num :: evs))
      with (inl page_num :: timeline evs).
    change (requests (Transcribe page_num :: evs))
      with (page_num :: requests evs).
    cbn [map]. f_equal. apply IH. exact H.
  - discriminate.
Qed.

Lemma timeline_quiet (evs : list event) :
  writes evs = [] -> requests evs = [] -> timeline evs = [].
Proof. intros Hw Hr. now rewrite (timeline_requests _ Hw), Hr. Qed.

(** In the outer loop the file of a batch comes right after the requests
    of its pages. *)
Lemma batch_loop_timeline (out : string) (s bs nb : Z) (sel : list Image)
    (idxs : list Z) (acc : list string) (st : state) :
  exists evs,
    log (snd (batch_loop out s bs nb sel idxs acc st)) = log st ++ evs
    /\ timeline evs
       = flat_map (fun b => map inl (batch_page_nums s sel bs b)
                            ++ (if 1 <? nb then [inr (batch_output out b)]
                                else []))
           idxs.
Proof.
  revert acc st. induction idxs as [|b idxs IH]; intros acc st.
  - exists []. cbn. rewrite app_nil_r. split; reflexivity.
  - cbn [batch_loop flat_map]. unfold bind at 1. unfold print at 1, emit.
    cbn [fst snd world log]. unfold bind at 1.
    match goal with
    | |- context [page_loop s ?bst ?items [] ?t] =>
        destruct (page_loop_run s bst items [] t) as (ev1 & E1 & Hr1 & Hw1 & _)
    end.
    cbv zeta in E1, Hr1. rewrite E1. clear E1. cbn [fst snd world log app].
    fold (batch_pages s sel bs b) in Hr1. fold (batch_page_nums s sel bs b) in Hr1.
    pose proof (timeline_requests ev1 Hw1) as Ht1. rewrite Hr1 in Ht1.
    destruct (Z.ltb_spec 1 nb) as [Hnb|Hnb].
    + unfold bind at 1. unfold bind at 1.
      unfold write_file at 1, print at 1, emit. cbn [fst snd world log].
      match goal with
      | |- context [batch_loop out s bs nb sel idxs ?a ?t] =>
          destruct (IH a t) as (ev2 & -> & Ht2)
      end.
      cbn [fst snd world log]. eexists. split.
      * rewrite <- !app_assoc. reflexivity.
      * rewrite !timeline_app, Ht1, Ht2. cbn. rewrite <- !app_assoc.
        reflexivity.
    + unfold bind at 1. unfold ret at 1.
      match goal with
      | |- context [batch_loop out s bs nb sel idxs ?a ?t] =>
          destruct (IH a t) as (ev2 & -> & Ht2)
      end.
      cbn [fst snd world log]. eexists. split.
      * rewrite <- !app_assoc. reflexivity.
      * rewrite !timeline_app, Ht1, Ht2. cbn. rewrite app_nil_r.
        reflexivity.
Qed.

(** The timeline of a run that passes the checks: that of the outer loop,
    then the final file. *)
Lemma main_timeline (args : Args) (w : World) :
  run_ready args ->
  let images := rendered_images (pdf_path args) (dpi args) in
  let s := start_page args in
  let sel := selection images s (effective_end_page args (len images)) in
  let bs := or_int (batch_size args) (len sel) in
  let nb := num_batches (len sel) bs in
  timeline (log (snd (main args (initial w))))
  = flat_map (fun b => map inl (batch_page_nums s sel bs b)
                       ++ (if 1 <? nb
                           then [inr (batch_output (output_path args) b)]
                           else []))
      (range nb)
    ++ [inr (output_path args)].
Proof.
  intros (Hkey & Hpath & Hrange). cbv zeta in *.
  unfold main. unfold bind at 1.
  destruct (check_environment_run (initial w)) as (ev0 & -> & Hr0 & Hw0 & _).
  rewrite Hkey, Hpath. cbn [negb]. unfold bind at 1.
  match goal with
  | |- context [extract_pages_as_images ?p ?d ?t] =>
      destruct (extract_run p d t) as (ev1 & -> & Hr1 & Hw1 & _)
  end.
  destruct (rendered_images (pdf_path args) (dpi args)) as [|im l] eqn:Eimg.
  { destruct Hrange as [Hs He]. change (@len Image []) with 0 in Hs, He. lia. }
  cbv iota. rewrite <- Eimg in *. clear Eimg im l.
  set (images := rendered_images (pdf_path args) (dpi args)) in *.
  set (s := start_page args) in *.
  set (e := effective_end_page args (len images)) in *.
  pose proof (len_selection images s e Hrange) as Hsel.
  destruct Hrange as [Hs He].
  destruct (Z.ltb_spec s 0); [lia|].
  destruct (Z.leb_spec (len images) s); [lia|]. cbn [orb].
  destruct (Z.ltb_spec e s); [lia|].
  destruct (Z.leb_spec (len images) e); [lia|]. cbn [orb].
  fold (selection images s e).
  set (sel := selection images s e) in *.
  set (bs := or_int (batch_size args) (len sel)).
  assert (Hbs : bs <> 0).
  { unfold bs, or_int. destruct (batch_size args) as [v|]; [|lia].
    destruct (Z.eqb_spec v 0); lia. }
  destruct (Z.eqb_spec bs 0); [contradiction|].
  fold (num_batches (len sel) bs).
  set (nb := num_batches (len sel) bs).
  unfold bind at 1.
  match goal with
  | |- context [batch_loop ?o s bs nb sel ?i ?a ?t] =>
      destruct (batch_loop_timeline o s bs nb sel i a t) as (evs & Hlog & Ht);
      destruct (batch_loop_run o s bs nb sel i a t) as (ev2 & E & _)
  end.
  rewrite E in Hlog |- *. cbn [snd log] in Hlog. apply app_inv_head in Hlog.
  subst ev2. unfold bind, write_file, print, emit. cbn [fst snd world log].
  rewrite !timeline_app, Ht, (timeline_quiet ev0 Hw0 Hr0),
    (timeline_quiet ev1 Hw1 Hr1).
  change (timeline (log (initial w))) with (@nil (Z + string)).
  cbn [timeline flat_map app]. rewrite !app_nil_r. reflexivity.
Qed.

End Checkpoints.

Lemma flat_map_agree {A B : Type} (f g : A -> list B) (l : list A) :
  (forall a, In a l -> f a = g a) -> flat_map f l = flat_map g l.
Proof.
  induction l as [|a l IH]; intros H; [reflexivity|].
  cbn [flat_map]. rewrite (H a (or_introl eq_refl)), IH; [reflexivity|].
  intros x Hx. apply H. now right.
Qed.

(** X17: the fixed pause costs at least one second per request: in every
    run the seconds slept are at least the number of entries into the
    transcription function, so a run over the pages [s .. e] with the
    batch size left out, 0 or positive sleeps at least e - s + 1
    seconds. *)
Theorem run_sleeps_a_second_per_page
    (platform : Platform) (args : Args) (w : World) :
  let images := rendered_images (pdf_path args) (dpi args) in
  let s := start_page args in
  let e := effective_end_page args (len images) in
  let evs := log (snd (main args (initial w))) in
  len (requests evs) <= elapsed evs
  /\ (run_ready args ->
      (forall v, batch_size args = Some v -> 0 <= v) ->
      e - s + 1 <= elapsed evs).
Proof.
  intros images s e evs.
  pose proof (pace_counts evs false false (main_paced args w)) as Hcount.
  split; [lia|]. intros Hready Hpos.
  destruct (main_run_partition args w Hready Hpos) as (evs' & E & Hr & _).
  cbv zeta in Hr. fold images s e in Hr.
  assert (Hev : evs = evs') by (unfold evs; now rewrite E).
  rewrite Hev in Hcount. rewrite Hr in Hcount.
  rewrite Hev. unfold pages_between, len in Hcount.
  rewrite length_map, length_seq in Hcount.
  destruct Hready as (_ & _ & Hs & He). fold images s e in Hs, He. lia.
Qed.

(** X18: with several batches, the file of each batch is written right
    after the requests of its pages and before any page of the next batch
    is requested; the final file comes last.  The order of requests and
    files in a run is: the pages of batch 0, its file, the pages of batch
    1, its file, and so on, then the final file. *)
Theorem each_batch_is_saved_before_the_next_begins
    (platform : Platform) (args : Args) (w : World) :
  let images := rendered_images (pdf_path args) (dpi args) in
  let s := start_page args in
  let sel := selection images s (effective_end_page args (len images)) in
  let bs := or_int (batch_size args) (len sel) in
  let nb := num_batches (len sel) bs in
  run_ready args -> 1 < nb ->
  timeline (log (snd (main args (initial w))))
  = flat_map (fun b =>
                map inl (pages_between (s + batch_start bs b)
                           (s + batch_end bs (len sel) b - 1))
                ++ [inr (batch_output (output_path args) b)])
      (range nb)
    ++ [inr (output_path args)].
Proof.
  cbv zeta. intros Hready Hnb.
  rewrite (main_timeline args w Hready). cbv zeta. f_equal.
  pose proof Hready as (_ & _ & Hrange). cbv zeta in Hrange.
  set (images := rendered_images (pdf_path args) (dpi args)) in *.
  set (s := start_page args) in *.
  set (sel := selection images s (effective_end_page args (len images))) in *.
  pose proof (len_selection _ _ _ Hrange) as Hsel. fold sel in Hsel.
  set (bs := or_int (batch_size args) (len sel)) in *.
  set (nb := num_batches (len sel) bs) in *.
  assert (Hbs : 0 < bs).
  { destruct (Z_lt_dec bs 0) as [Hneg|Hge].
    - pose proof (num_batches_negative (len sel) bs Hneg) as Hle.
      destruct Hrange. fold nb in Hle. lia.
    - assert (bs <> 0); [|lia]. unfold bs, or_int.
      destruct (batch_size args) as [v|]; [|destruct Hrange; lia].
      destruct (Z.eqb_spec v 0); [destruct Hrange; lia | assumption]. }
  destruct (Z.ltb_spec 1 nb); [|lia].
  apply flat_map_agree. intros b Hb. f_equal. f_equal.
  apply batch_page_nums_interval; [assumption|].
  unfold range in Hb. apply in_map_iff in Hb.
  destruct Hb as (k & <- & Hk). apply in_seq in Hk. fold nb. lia.
Qed.

Lemma each_batch_is_saved_before_the_next_begins_witness :
  timeline (log (snd (main (platform := five_pages)
                        (test_args 1 (Some 4) (Some 3))
                        (initial (platform := five_pages) 0%nat))))
  = flat_map (fun b =>
                map inl (pages_between (1 + batch_start 3 b)
                           (1 + batch_end 3 4 b - 1))
                ++ [inr (batch_output (platform := five_pages)
                           "article_translated_en.tex" b)])
      (range 2)
    ++ [inr "article_translated_en.tex"%string].
Proof.
  apply (each_batch_is_saved_before_the_next_begins five_pages
           (test_args 1 (Some 4) (Some 3)) 0%nat).
  - repeat split; vm_compute; congruence.
  - vm_compute. reflexivity.
Defined.
